(** * MindRemember API: users, tokens and owner-scoped entities

    A shallow embedding of [src/users/models.py], [src/users/dependencies.py],
    [src/users/service.py] and [src/users/router.py].

    The request handlers are Python coroutines that mutate a SQLAlchemy
    session and signal failure by raising.  They are embedded in a small
    monad that reads the per-request environment (clock, salt, what the
    store answers), threads the session and carries the raised exception;
    unlike a state transformer over [sum], a raise keeps the session as the
    handler left it, which is what Python does. *)

From Stdlib Require Import ZArith List String Ascii Bool Lia DecimalString Permutation.
Import ListNotations.

Local Open Scope Z_scope.
Local Open Scope string_scope.
Local Open Scope list_scope.

Declare Scope handler_scope.
Delimit Scope handler_scope with handler.

(** ** Time

    A [datetime] is a number of microseconds since the epoch and a
    [timedelta] a number of microseconds. *)

Definition datetime := Z.
Definition timedelta := Z.

(** [timedelta(minutes=m)]. *)
Definition timedelta_minutes (m : Z) : timedelta := m * 60000000.

(** [calendar.timegm(t.utctimetuple())]: whole seconds since the epoch. *)
Definition timegm (t : datetime) : Z := t / 1000000.

(** ** Rows of [models.py]

    One module per declarative class, so that the columns keep the names
    they have in the source.  A nullable column is an [option]; the primary
    key of an object that was not flushed yet is [0]. *)

Module User.
Record t := mk { id : Z; login : string; password : string }.
End User.

Module Folder.
Record t := mk {
  id : Z;
  text_folder : string;
  number_of_topics : Z;
  last_open_date_time : option datetime;
  user_id : Z }.
End Folder.

Module Theme.
Record t := mk {
  id : Z;
  name_theme : string;
  last_open_date_time : option datetime;
  number_of_records : Z;
  folder_id : Z }.
End Theme.

Module Record_.
Record t := mk {
  id : Z;
  name_record : string;
  text_records : option string;
  last_open_date_time : option datetime;
  count_text : Z;
  theme_id : Z }.
End Record_.

Module KnowledgeQueue.
Record t := mk {
  id : Z;
  content_knowledge_queue : string;
  completed_task_status : bool;
  number_of_cycles : Z;
  create_date_time : option datetime;
  next_alert_card : option datetime;
  user_id : Z }.
End KnowledgeQueue.

(** ** Request bodies

    [schemas.py] is not part of the sources.  The service builds a row as
    the declarative class applied to the fields of the body and to the
    parent key, so a body can carry any column but the primary key and the
    parent key; the bodies of the four entities carry all of them, which is
    the widest input the handlers can receive. *)

(** Modelled from the spec: [UserCreate] of [schemas.py]; the registration
    endpoint accepts a login and a password, which are the fields the
    service and the tests use. *)
Module UserCreate.
Record t := mk { login : string; password : string }.
End UserCreate.

(** Modelled from the spec: [UserInDB] of [schemas.py]; the login endpoint
    accepts a username and a field named [hashed_password], which the
    router passes on as the password to verify. *)
Module UserInDB.
Record t := mk { username : string; hashed_password : string }.
End UserInDB.

(** Modelled from the spec: [FolderBase] and [FolderCreate] of
    [schemas.py]; the fields of a folder but its id and its owner, the last
    opened time being a value the client may supply and the service
    overwrites. *)
Module FolderBase.
Record t := mk {
  text_folder : string;
  number_of_topics : Z;
  last_open_date_time : option datetime }.
End FolderBase.

(** Modelled from the spec: [ThemeBase] and [ThemeCreate] of [schemas.py];
    the fields of a theme but its id and its folder. *)
Module ThemeCreate.
Record t := mk {
  name_theme : string;
  last_open_date_time : option datetime;
  number_of_records : Z }.
End ThemeCreate.

(** Modelled from the spec: [RecordBase] and [RecordCreate] of
    [schemas.py]; the fields of a record but its id and its theme. *)
Module RecordCreate.
Record t := mk {
  name_record : string;
  text_records : option string;
  last_open_date_time : option datetime;
  count_text : Z }.
End RecordCreate.

(** Modelled from the spec: [KnowledgeQueueBase] and
    [KnowledgeQueueCreate] of [schemas.py]; the fields of an entry but its id
    and its owner, the next alert being a value the caller may supply. *)
Module KnowledgeQueueCreate.
Record t := mk {
  content_knowledge_queue : string;
  completed_task_status : bool;
  number_of_cycles : Z;
  create_date_time : option datetime;
  next_alert_card : option datetime }.
End KnowledgeQueueCreate.

(** ** Exceptions *)

Inductive SQLAlchemyError :=
| IntegrityError
| OperationalError.   (* any store failure that is not an integrity violation *)

Inductive JWTErrorKind := Malformed | SignatureInvalid | Expired.

Inductive Exn :=
| HTTPException (status_code : Z) (detail : string)
                (headers : list (string * string))
| StoreError (e : SQLAlchemyError)
| JWTError (k : JWTErrorKind)
| PasswordValueError.   (* the hasher refuses the password it is given *)

Definition HTTP_400_BAD_REQUEST : Z := 400.
Definition HTTP_401_UNAUTHORIZED : Z := 401.
Definition HTTP_409_CONFLICT : Z := 409.

(** The [except] clauses of the source. *)
Definition except_Exception (e : Exn) : bool := true.

Definition except_IntegrityError (e : Exn) : bool :=
  match e with StoreError IntegrityError => true | _ => false end.

Definition except_JWTError (e : Exn) : bool :=
  match e with JWTError _ => true | _ => false end.

Definition is_HTTPException (e : Exn) : bool :=
  match e with HTTPException _ _ _ => true | _ => false end.

(** ** The store and the session *)

Record DB := mkDB {
  users : list User.t;
  folders : list Folder.t;
  themes : list Theme.t;
  records : list Record_.t;
  knowledge_queues : list KnowledgeQueue.t }.

Inductive Entity :=
| EUser (u : User.t)
| EFolder (f : Folder.t)
| ETheme (t : Theme.t)
| ERecord (r : Record_.t)
| EKnowledgeQueue (q : KnowledgeQueue.t).

(** An [AsyncSession]: the committed store and the objects added to the
    session and not flushed yet. *)
Record AsyncSession := mkSession {
  store : DB;
  pending : list Entity }.

(** Modelled from the spec: [get_db] of [database.py], which is not part of
    the sources; every request runs on a session of its own over the one
    shared store, with nothing pending. *)
Definition get_db (d : DB) : AsyncSession := mkSession d [].

(** What a declarative class gives the session: its table, its primary key
    and how its objects are staged. *)
Class Model (R : Type) := {
  table : DB -> list R;
  pk : R -> Z;
  set_pk : Z -> R -> R;
  entity : R -> Entity }.

#[export] Instance User_Model : Model User.t := {
  table := users;
  pk := User.id;
  set_pk := fun i u => User.mk i (User.login u) (User.password u);
  entity := EUser }.

#[export] Instance Folder_Model : Model Folder.t := {
  table := folders;
  pk := Folder.id;
  set_pk := fun i f =>
    Folder.mk i (Folder.text_folder f) (Folder.number_of_topics f)
              (Folder.last_open_date_time f) (Folder.user_id f);
  entity := EFolder }.

#[export] Instance Theme_Model : Model Theme.t := {
  table := themes;
  pk := Theme.id;
  set_pk := fun i t =>
    Theme.mk i (Theme.name_theme t) (Theme.last_open_date_time t)
             (Theme.number_of_records t) (Theme.folder_id t);
  entity := ETheme }.

#[export] Instance Record_Model : Model Record_.t := {
  table := records;
  pk := Record_.id;
  set_pk := fun i r =>
    Record_.mk i (Record_.name_record r) (Record_.text_records r)
               (Record_.last_open_date_time r) (Record_.count_text r)
               (Record_.theme_id r);
  entity := ERecord }.

#[export] Instance KnowledgeQueue_Model : Model KnowledgeQueue.t := {
  table := knowledge_queues;
  pk := KnowledgeQueue.id;
  set_pk := fun i q =>
    KnowledgeQueue.mk i (KnowledgeQueue.content_knowledge_queue q)
                      (KnowledgeQueue.completed_task_status q)
                      (KnowledgeQueue.number_of_cycles q)
                      (KnowledgeQueue.create_date_time q)
                      (KnowledgeQueue.next_alert_card q)
                      (KnowledgeQueue.user_id q);
  entity := EKnowledgeQueue }.

(** The autoincremented primary key: one more than the largest in use. *)
Definition next_pk {R} `{Model R} (rows : list R) : Z :=
  1 + fold_right Z.max 0 (map pk rows).

(** One INSERT.  [users.login] is declared [unique=True]; it is the only
    constraint the store checks by itself here.  Whatever else a backend
    refuses reaches the handlers through [commit_fault] below. *)
Definition insert_entity (e : Entity) (d : DB) : SQLAlchemyError + DB :=
  match e with
  | EUser u =>
      if existsb (fun v => String.eqb (User.login v) (User.login u)) (users d)
      then inl IntegrityError
      else inr (mkDB (users d ++ [u]) (folders d) (themes d) (records d)
                     (knowledge_queues d))
  | EFolder f =>
      inr (mkDB (users d) (folders d ++ [f]) (themes d) (records d)
                (knowledge_queues d))
  | ETheme t =>
      inr (mkDB (users d) (folders d) (themes d ++ [t]) (records d)
                (knowledge_queues d))
  | ERecord r =>
      inr (mkDB (users d) (folders d) (themes d) (records d ++ [r])
                (knowledge_queues d))
  | EKnowledgeQueue q =>
      inr (mkDB (users d) (folders d) (themes d) (records d)
                (knowledge_queues d ++ [q]))
  end.

(** The [default=datetime.datetime.utcnow] columns of [models.py].  The
    unit of work leaves an attribute that holds [None] out of the INSERT,
    and a column left out takes its declared default, called when the
    statement runs, at [t].  ([Folder.last_open_date_time] declares
    [default=None]; the integer and boolean columns are always given by the
    bodies above.) *)
Definition or_default (v : option datetime) (t : datetime) : option datetime :=
  match v with
  | Some x => Some x
  | None => Some t
  end.

Definition column_defaults (t : datetime) (e : Entity) : Entity :=
  match e with
  | EUser u => EUser u
  | EFolder f => EFolder f
  | ETheme th =>
      ETheme (Theme.mk (Theme.id th) (Theme.name_theme th)
                (or_default (Theme.last_open_date_time th) t)
                (Theme.number_of_records th) (Theme.folder_id th))
  | ERecord r =>
      ERecord (Record_.mk (Record_.id r) (Record_.name_record r)
                 (Record_.text_records r)
                 (or_default (Record_.last_open_date_time r) t)
                 (Record_.count_text r) (Record_.theme_id r))
  | EKnowledgeQueue q =>
      EKnowledgeQueue
        (KnowledgeQueue.mk (KnowledgeQueue.id q)
           (KnowledgeQueue.content_knowledge_queue q)
           (KnowledgeQueue.completed_task_status q)
           (KnowledgeQueue.number_of_cycles q)
           (or_default (KnowledgeQueue.create_date_time q) t)
           (or_default (KnowledgeQueue.next_alert_card q) t)
           (KnowledgeQueue.user_id q))
  end.

(** The flush of a commit at [t]: the pending objects are inserted in the
    order they were added, all or none. *)
Fixpoint flush (t : datetime) (es : list Entity) (d : DB) : SQLAlchemyError + DB :=
  match es with
  | [] => inr d
  | e :: es' =>
      match insert_entity (column_defaults t e) d with
      | inl err => inl err
      | inr d' => flush t es' d'
      end
  end.

(** ** The handler monad *)

(** What a request finds around it: the clock when the service reads it and
    when the INSERT runs, the salt the hasher draws, and the exception, if
    any, the store raises when asked to commit or to refresh (a constraint
    of the backend, a lost connection, a concurrent writer). *)
Record Env := mkEnv {
  now : datetime;
  commit_time : datetime;
  salt : string;
  commit_fault : option SQLAlchemyError;
  refresh_fault : option SQLAlchemyError }.

Inductive Outcome (A : Type) :=
| Return (a : A)
| Raise (e : Exn).
Arguments Return {A} a.
Arguments Raise {A} e.

Definition M (A : Type) : Type := Env -> AsyncSession -> Outcome A * AsyncSession.

Definition ret {A} (a : A) : M A := fun _ s => (Return a, s).

Definition bind {A B} (m : M A) (k : A -> M B) : M B :=
  fun env s =>
    match m env s with
    | (Return a, s') => k a env s'
    | (Raise e, s') => (Raise e, s')
    end.

Definition raise {A} (e : Exn) : M A := fun _ s => (Raise e, s).

(** [try: body  except E: handler], where [catches] is the class [E]. *)
Definition try_except {A} (body : M A) (catches : Exn -> bool) (handler : M A) : M A :=
  fun env s =>
    match body env s with
    | (Return a, s') => (Return a, s')
    | (Raise e, s') => if catches e then handler env s' else (Raise e, s')
    end.

Notation "x <- m ;; k" := (bind m (fun x => k))
  (at level 61, m at next level, right associativity) : handler_scope.
Notation "m ;; k" := (bind m (fun _ => k))
  (at level 61, right associativity) : handler_scope.

Local Open Scope handler_scope.

Definition ask : M Env := fun env s => (Return env, s).
Definition get_session : M AsyncSession := fun _ s => (Return s, s).
Definition put_session (s : AsyncSession) : M unit := fun _ _ => (Return tt, s).

(** [datetime.utcnow()] and [datetime.now(timezone.utc)]. *)
Definition utcnow : M datetime := env <- ask ;; ret (now env).

(** ** Session operations *)

(** [db.add(obj)].  The object is staged; the primary key the flush will
    give it is fixed here, and the updated object is returned, which stands
    for the mutation in place of the Python object. *)
Definition db_add {R} `{Model R} (obj : R) : M R :=
  s <- get_session ;;
  let obj' := set_pk (next_pk (table (store s))) obj in
  put_session (mkSession (store s) (pending s ++ [entity obj'])) ;;
  ret obj'.

(** [await db.commit()].  A commit that fails rolls its transaction back
    before it raises, which expunges the objects that were pending. *)
Definition db_commit : M unit :=
  env <- ask ;;
  s <- get_session ;;
  match commit_fault env with
  | Some err =>
      put_session (mkSession (store s) []) ;;
      raise (StoreError err)
  | None =>
      match flush (commit_time env) (pending s) (store s) with
      | inl err =>
          put_session (mkSession (store s) []) ;;
          raise (StoreError err)
      | inr d' => put_session (mkSession d' [])
      end
  end.

(** [await db.refresh(obj)]: the row is read back by primary key. *)
Definition db_refresh {R} `{Model R} (obj : R) : M R :=
  env <- ask ;;
  s <- get_session ;;
  match refresh_fault env with
  | Some err => raise (StoreError err)
  | None =>
      match find (fun r => Z.eqb (pk r) (pk obj)) (table (store s)) with
      | Some row => ret row
      | None => raise (StoreError OperationalError)
      end
  end.

(** [await db.rollback()]: what is still pending is expunged. *)
Definition db_rollback : M unit :=
  s <- get_session ;;
  put_session (mkSession (store s) []).

(** [(await db.execute(select(R).where(p))).scalars().first()] and [.all()]. *)
Definition select_first {R} `{Model R} (p : R -> bool) : M (option R) :=
  s <- get_session ;; ret (find p (table (store s))).

Definition select_all {R} `{Model R} (p : R -> bool) : M (list R) :=
  s <- get_session ;; ret (filter p (table (store s))).

(** ** Collaborators

    The hasher ([passlib]), the signer ([jose]) and the configuration
    ([config.py], not part of the sources) are taken as given.  The hasher
    draws a salt, which the environment supplies; asked to verify a
    password it refuses (one with a NUL character), it raises, which is the
    answer [None].  Hashing is taken on the passwords it accepts. *)

(** A Python [bytes]: the characters are the bytes. *)
Definition bytes := string.

(** The payload of a token.  [jose] refuses a [sub] that is not a string and
    an [exp] that is not a number of seconds, so these are the payloads a
    successful decode can return, up to keys the service never reads. *)
Record Claims := mkClaims {
  sub : option string;
  exp : option Z }.

(** The value of the cookie: a string that is not a compact serialization,
    or one, with the algorithm of its header, its payload and the bytes its
    signature segment decodes to.  Two serializations that decode to the
    same three parts are the same token here. *)
Inductive Token :=
| Opaque (raw : string)
| Compact (alg : string) (claims : Claims) (signature : bytes).

Class Platform := {
  SECRET_KEY : string;
  ALGORITHM : string;
  ACCESS_TOKEN_EXPIRE_MINUTES : Z;
  pwd_context_hash : string -> string -> string;     (* salt, password *)
  pwd_context_verify : string -> string -> option bool;  (* password, hash *)
  jws_sign : string -> string -> Claims -> bytes }.  (* key, algorithm, payload *)

(** [jwt.encode(claims, key, algorithm=algorithm)]. *)
Definition jwt_encode `{Platform} (claims : Claims) (key algorithm : string) : Token :=
  Compact algorithm claims (jws_sign key algorithm claims).

(** [jwt.decode(token, key, algorithms=algorithms)] at clock [t]: the
    structure and the algorithm are checked, the decoded signature is
    compared with the bytes the key signs, then the expiry is refused when
    [exp < now] in whole seconds. *)
Definition jwt_decode `{Platform} (token : Token) (key : string)
    (algorithms : list string) (t : datetime) : JWTErrorKind + Claims :=
  match token with
  | Opaque _ => inl Malformed
  | Compact alg claims signature =>
      if negb (existsb (String.eqb alg) algorithms) then inl SignatureInvalid
      else if negb (String.eqb signature (jws_sign key alg claims))
      then inl SignatureInvalid
      else match exp claims with
           | Some e => if Z.ltb e (timegm t) then inl Expired else inr claims
           | None => inr claims
           end
  end.

(** Truth value of [expires_delta] in [if expires_delta:]: [None] and the
    zero [timedelta] are false. *)
Definition timedelta_truthy (expires_delta : option timedelta) : bool :=
  match expires_delta with
  | Some d => negb (Z.eqb d 0)
  | None => false
  end.

(** The body of a successful registration, [{"status": 201, "data": new_user}]. *)
Record Created := mkCreated {
  status : Z;
  data : User.t }.

Section Service.

Context `{P : Platform}.

(** *** User operations ([service.py]) *)

Definition get_password_hash (password : string) : M string :=
  env <- ask ;; ret (pwd_context_hash (salt env) password).

Definition verify_password (plain_password hashed_password : string) : M bool :=
  match pwd_context_verify plain_password hashed_password with
  | Some answer => ret answer
  | None => raise PasswordValueError
  end.

Definition create_user (user : UserCreate.t) : M Created :=
  let new_user := User.mk 0 (UserCreate.login user) (UserCreate.password user) in
  hashed <- get_password_hash (User.password new_user) ;;
  let new_user := User.mk (User.id new_user) (User.login new_user) hashed in
  new_user <- try_except
    (new_user <- db_add new_user ;;
     db_commit ;;
     db_refresh new_user)
    except_IntegrityError
    (db_rollback ;;
     raise (HTTPException HTTP_400_BAD_REQUEST
              "A user with this login already exists." [])) ;;
  ret (mkCreated 201 new_user).

Definition get_user (username : string) : M (option User.t) :=
  select_first (fun u => String.eqb (User.login u) username).

(** [False] is [None]. *)
Definition authenticate_user (username password : string) : M (option User.t) :=
  user <- get_user username ;;
  match user with
  | None => ret None
  | Some u =>
      ok <- verify_password password (User.password u) ;;
      if negb ok then ret None else ret (Some u)
  end.

(** *** Tokenization *)

(** [data] is the dictionary to encode, of which the service sets [sub];
    [jwt.encode] turns the [datetime] stored under [exp] into whole
    seconds. *)
Definition create_access_token (data : Claims) (expires_delta : option timedelta)
  : M Token :=
  t <- utcnow ;;
  let expire :=
    if timedelta_truthy expires_delta
    then t + match expires_delta with Some d => d | None => 0 end
    else t + timedelta_minutes ACCESS_TOKEN_EXPIRE_MINUTES in
  let to_encode := mkClaims (sub data) (Some (timegm expire)) in
  ret (jwt_encode to_encode SECRET_KEY ALGORITHM).

Definition credentials_exception : Exn :=
  HTTPException HTTP_401_UNAUTHORIZED "Could not verify credentials"
                [("WWW-Authenticate", "Bearer")].

Definition get_current_user (access_token : option Token) : M User.t :=
  match access_token with
  | None => raise credentials_exception
  | Some access_token =>
      token_data <- try_except
        (t <- utcnow ;;
         match jwt_decode access_token SECRET_KEY [ALGORITHM] t with
         | inl k => raise (JWTError k)
         | inr payload =>
             match sub payload with
             | None => raise credentials_exception
             | Some username => ret username
             end
         end)
        except_JWTError
        (raise credentials_exception) ;;
      user <- get_user token_data ;;
      match user with
      | None => raise credentials_exception
      | Some user => ret user
      end
  end.

(** *** Folder operations *)

Definition add_folder (folder_data : FolderBase.t) (user_id : Z) : M Folder.t :=
  let new_folder :=
    Folder.mk 0 (FolderBase.text_folder folder_data)
              (FolderBase.number_of_topics folder_data)
              (FolderBase.last_open_date_time folder_data) user_id in
  t <- utcnow ;;
  let new_folder :=
    Folder.mk (Folder.id new_folder) (Folder.text_folder new_folder)
              (Folder.number_of_topics new_folder) (Some t)
              (Folder.user_id new_folder) in
  try_except
    (new_folder <- db_add new_folder ;;
     db_commit ;;
     db_refresh new_folder)
    except_Exception
    (db_rollback ;;
     raise (HTTPException HTTP_400_BAD_REQUEST "Failed to add folder." [])).

Definition get_user_folders (user_id : Z) : M (list Folder.t) :=
  select_all (fun f => Z.eqb (Folder.user_id f) user_id).

(** *** Theme services *)

Definition add_theme (theme_data : ThemeCreate.t) (folder_id : Z) : M Theme.t :=
  let new_theme :=
    Theme.mk 0 (ThemeCreate.name_theme theme_data)
             (ThemeCreate.last_open_date_time theme_data)
             (ThemeCreate.number_of_records theme_data) folder_id in
  t <- utcnow ;;
  let new_theme :=
    Theme.mk (Theme.id new_theme) (Theme.name_theme new_theme) (Some t)
             (Theme.number_of_records new_theme) (Theme.folder_id new_theme) in
  try_except
    (new_theme <- db_add new_theme ;;
     db_commit ;;
     db_refresh new_theme)
    except_Exception
    (db_rollback ;;
     raise (HTTPException HTTP_400_BAD_REQUEST "Failed to add theme." [])).

Definition get_themes_by_folder (folder_id : Z) : M (list Theme.t) :=
  select_all (fun t => Z.eqb (Theme.folder_id t) folder_id).

(** *** Record services *)

Definition add_record (record_data : RecordCreate.t) (theme_id : Z) : M Record_.t :=
  let new_record :=
    Record_.mk 0 (RecordCreate.name_record record_data)
               (RecordCreate.text_records record_data)
               (RecordCreate.last_open_date_time record_data)
               (RecordCreate.count_text record_data) theme_id in
  t <- utcnow ;;
  let new_record :=
    Record_.mk (Record_.id new_record) (Record_.name_record new_record)
               (Record_.text_records new_record) (Some t)
               (Record_.count_text new_record) (Record_.theme_id new_record) in
  try_except
    (new_record <- db_add new_record ;;
     db_commit ;;
     db_refresh new_record)
    except_Exception
    (db_rollback ;;
     raise (HTTPException HTTP_400_BAD_REQUEST "Failed to add record." [])).

Definition get_records_by_theme (theme_id : Z) : M (list Record_.t) :=
  select_all (fun r => Z.eqb (Record_.theme_id r) theme_id).

(** *** KnowledgeQueue services *)

Definition add_knowledge_queue (queue_data : KnowledgeQueueCreate.t) (user_id : Z)
  : M KnowledgeQueue.t :=
  let new_queue :=
    KnowledgeQueue.mk 0 (KnowledgeQueueCreate.content_knowledge_queue queue_data)
                      (KnowledgeQueueCreate.completed_task_status queue_data)
                      (KnowledgeQueueCreate.number_of_cycles queue_data)
                      (KnowledgeQueueCreate.create_date_time queue_data)
                      (KnowledgeQueueCreate.next_alert_card queue_data) user_id in
  t <- utcnow ;;
  let new_queue :=
    KnowledgeQueue.mk (KnowledgeQueue.id new_queue)
                      (KnowledgeQueue.content_knowledge_queue new_queue)
                      (KnowledgeQueue.completed_task_status new_queue)
                      (KnowledgeQueue.number_of_cycles new_queue)
                      (Some t)
                      (KnowledgeQueue.next_alert_card new_queue)
                      (KnowledgeQueue.user_id new_queue) in
  let new_queue :=
    KnowledgeQueue.mk (KnowledgeQueue.id new_queue)
                      (KnowledgeQueue.content_knowledge_queue new_queue)
                      (KnowledgeQueue.completed_task_status new_queue)
                      (KnowledgeQueue.number_of_cycles new_queue)
                      (KnowledgeQueue.create_date_time new_queue)
                      None
                      (KnowledgeQueue.user_id new_queue) in
  try_except
    (new_queue <- db_add new_queue ;;
     db_commit ;;
     db_refresh new_queue)
    except_Exception
    (db_rollback ;;
     raise (HTTPException HTTP_400_BAD_REQUEST "Failed to add knowledge queue." [])).

Definition get_knowledge_queues_by_user (user_id : Z) : M (list KnowledgeQueue.t) :=
  select_all (fun q => Z.eqb (KnowledgeQueue.user_id q) user_id).

(** *** The uniqueness dependency ([dependencies.py]) *)

Definition login_taken_detail : string :=
  "Пользователь с таким логином уже зарегистрирован в базе данных.".

Definition check_unique_login (user : UserCreate.t) : M unit :=
  existing_user <- select_first
    (fun u => String.eqb (User.login u) (UserCreate.login user)) ;;
  match existing_user with
  | Some _ =>
      raise (HTTPException HTTP_409_CONFLICT login_taken_detail [])
  | None => ret tt
  end.

(** *** Endpoints ([router.py])

    A request carries its cookies; a handler sees the [access_token] cookie
    only through a [Depends(get_current_user)] parameter, which is resolved
    before its body runs. *)

Record Request := mkRequest {
  access_token : option Token }.

Record TokenBody := mkTokenBody {
  body_access_token : Token;
  token_type : string }.

(** A cookie set on the response: key, value, [httponly]. *)
Record LoginResponse := mkLoginResponse {
  body : TokenBody;
  set_cookie : list (string * Token * bool) }.

Definition add_user (user : UserCreate.t) : M Created :=
  check_unique_login user ;;
  create_user user.

Definition login_for_access_token (user : UserInDB.t) : M LoginResponse :=
  user <- authenticate_user (UserInDB.username user) (UserInDB.hashed_password user) ;;
  match user with
  | None =>
      raise (HTTPException HTTP_401_UNAUTHORIZED "Incorrect username or password"
               [("WWW-Authenticate", "Bearer")])
  | Some user =>
      let access_token_expires := timedelta_minutes ACCESS_TOKEN_EXPIRE_MINUTES in
      access_token <- create_access_token
        (mkClaims (Some (User.login user)) None) (Some access_token_expires) ;;
      ret (mkLoginResponse (mkTokenBody access_token "bearer")
                           [("access_token", access_token, true)])
  end.

Definition add_one_folder (req : Request) (folder_data : FolderBase.t) : M Folder.t :=
  current_user <- get_current_user (access_token req) ;;
  add_folder folder_data (User.id current_user).

Definition read_user_folders (req : Request) : M (list Folder.t) :=
  current_user <- get_current_user (access_token req) ;;
  get_user_folders (User.id current_user).

Definition create_theme (req : Request) (folder_id : Z) (theme_data : ThemeCreate.t)
  : M Theme.t :=
  current_user <- get_current_user (access_token req) ;;
  add_theme theme_data folder_id.

Definition read_themes (req : Request) (folder_id : Z) : M (list Theme.t) :=
  get_themes_by_folder folder_id.

Definition create_record (req : Request) (theme_id : Z) (record_data : RecordCreate.t)
  : M Record_.t :=
  current_user <- get_current_user (access_token req) ;;
  add_record record_data theme_id.

Definition read_records (req : Request) (theme_id : Z) : M (list Record_.t) :=
  get_records_by_theme theme_id.

Definition create_knowledge_queue (req : Request) (queue_data : KnowledgeQueueCreate.t)
  : M KnowledgeQueue.t :=
  current_user <- get_current_user (access_token req) ;;
  add_knowledge_queue queue_data (User.id current_user).

Definition read_knowledge_queue (req : Request) : M (list KnowledgeQueue.t) :=
  current_user <- get_current_user (access_token req) ;;
  get_knowledge_queues_by_user (User.id current_user).

End Service.

(** ** The earlier registration ([users/service.py], [users/router.py])

    The first version of the registration, kept beside [src/]: the check of
    the login is part of [create_user], the password is stored as it is
    submitted and the created row is returned bare. *)

Module Legacy.

Definition login_exists_detail : string :=
  "Пользователь с таким логином уже существует.".

Definition create_user (user : UserCreate.t) : M User.t :=
  existing_user <- select_first
    (fun u => String.eqb (User.login u) (UserCreate.login user)) ;;
  match existing_user with
  | Some _ =>
      raise (HTTPException HTTP_400_BAD_REQUEST login_exists_detail [])
  | None =>
      let new_user :=
        User.mk 0 (UserCreate.login user) (UserCreate.password user) in
      try_except
        (new_user <- db_add new_user ;;
         db_commit ;;
         db_refresh new_user)
        except_IntegrityError
        (db_rollback ;;
         raise (HTTPException HTTP_400_BAD_REQUEST login_exists_detail []))
  end.

Definition add_user (user : UserCreate.t) : M User.t :=
  create_user user.

End Legacy.

(** ** Vocabulary of the statements *)

(** What [get_user] computes on a store. *)
Definition lookup_login (d : DB) (username : string) : option User.t :=
  find (fun u => String.eqb (User.login u) username) (users d).

(** The tokens [jwt.decode] accepts at clock [t]: well formed, carrying the
    bytes the process key signs under the configured algorithm, and with an
    expiry that is not earlier than the clock in whole seconds, so that a
    token is still accepted during the second of its expiry. *)
Definition token_accepted `{Platform} (token : Token) (t : datetime) (c : Claims)
  : Prop :=
  exists sig,
    token = Compact ALGORITHM c sig
    /\ sig = jws_sign SECRET_KEY ALGORITHM c
    /\ (forall e, exp c = Some e -> timegm t <= e).

(** The answer of the create handlers to a caught exception. *)
Definition bad_request (detail : string) : Exn :=
  HTTPException HTTP_400_BAD_REQUEST detail [].

(** The answer of the login endpoint to a failed authentication. *)
Definition invalid_credentials : Exn :=
  HTTPException HTTP_401_UNAUTHORIZED "Incorrect username or password"
                [("WWW-Authenticate", "Bearer")].

(** No two rows of [users] share a login: the constraint [unique=True]. *)
Definition unique_logins (d : DB) : Prop :=
  NoDup (map User.login (users d)).

(** The token a login at clock [t] issues to [u], and the response that
    carries it in its body and in an [httponly] cookie. *)
Definition login_token `{Platform} (u : User.t) (t : datetime) : Token :=
  jwt_encode
    (mkClaims (Some (User.login u))
              (Some (timegm t + 60 * ACCESS_TOKEN_EXPIRE_MINUTES)))
    SECRET_KEY ALGORITHM.

Definition login_response (token : Token) : LoginResponse :=
  mkLoginResponse (mkTokenBody token "bearer") [("access_token", token, true)].

(** A token is past its expiry, as the specification reads it, when the
    clock is not earlier than the instant its [exp] names. *)
Definition past_expiry (c : Claims) (t : datetime) : Prop :=
  exists e, exp c = Some e /\ e * 1000000 <= t.

(** ** A reference platform and sample data

    Used to run the handlers on concrete requests. *)

Definition ends_with (suffix s : string) : bool :=
  String.eqb
    (substring (String.length s - String.length suffix)%nat
               (String.length suffix) s)
    suffix.

Definition has_nul (s : string) : bool :=
  existsb (Ascii.eqb Ascii.zero) (list_ascii_of_string s).

Definition show_exp (e : option Z) : string :=
  match e with
  | Some n => NilZero.string_of_int (Z.to_int n)
  | None => "-"
  end.

Definition reference_platform : Platform := {|
  SECRET_KEY := "s3cr3t";
  ALGORITHM := "HS256";
  ACCESS_TOKEN_EXPIRE_MINUTES := 30;
  pwd_context_hash := fun salt password =>
    ("$2b$12$" ++ salt ++ "$" ++ password)%string;
  pwd_context_verify := fun password hashed =>
    if has_nul password then None
    else Some (ends_with ("$" ++ password)%string hashed);
  jws_sign := fun key alg claims =>
    ("hmac(" ++ key ++ "," ++ alg ++ ","
       ++ match sub claims with Some s => s | None => "-" end
       ++ "," ++ show_exp (exp claims) ++ ")")%string |}.

(** A request served at 2023-11-14 22:13:20 UTC by a store that raises
    nothing, one whose commit loses the connection, and one whose commit
    meets a concurrent registration of the same login. *)
Definition env0 : Env :=
  mkEnv 1700000000000000 1700000000000250 "salt" None None.

Definition env_down : Env :=
  mkEnv 1700000000000000 1700000000000250 "salt" (Some OperationalError) None.

Definition env_raced : Env :=
  mkEnv 1700000000000000 1700000000000250 "salt" (Some IntegrityError) None.

(** One whose commit succeeds and whose refresh loses the connection. *)
Definition env_cut : Env :=
  mkEnv 1700000000000000 1700000000000250 "salt" None (Some OperationalError).

Definition empty_db : DB := mkDB [] [] [] [] [].

Definition alice_row : User.t := User.mk 1 "alice" "$2b$12$salt$pw1".
Definition bob_row : User.t := User.mk 2 "bob" "$2b$12$salt$pw2".

Definition alice_folder : Folder.t :=
  Folder.mk 1 "Spanish" 0 (Some 1600000000000000) 1.

Definition alice_theme : Theme.t :=
  Theme.mk 1 "Verbs" (Some 1600000000000000) 0 1.

Definition alice_record : Record_.t :=
  Record_.mk 1 "ser" (Some "to be") (Some 1600000000000000) 5 1.

(** Alice and Bob are registered; the folder, the theme and the record are
    Alice's. *)
Definition db1 : DB :=
  mkDB [alice_row; bob_row] [alice_folder] [alice_theme] [alice_record] [].

Definition alice : UserCreate.t := UserCreate.mk "alice" "pw1".

Definition alice_claims : Claims := mkClaims (Some "alice") (Some 1700001800).
Definition bob_claims : Claims := mkClaims (Some "bob") (Some 1700001800).

Definition alice_token : Token :=
  jwt_encode (H := reference_platform) alice_claims "s3cr3t" "HS256".

Definition bob_token : Token :=
  jwt_encode (H := reference_platform) bob_claims "s3cr3t" "HS256".

(** The folder Bob creates at [env0], and the store with it. *)
Definition french : FolderBase.t := FolderBase.mk "French" 0 None.

Definition bob_folder : Folder.t :=
  Folder.mk 2 "French" 0 (Some 1700000000000000) 2.

Definition db2 : DB :=
  mkDB [alice_row; bob_row] [alice_folder; bob_folder] [alice_theme]
       [alice_record] [].

(** A theme and a record Bob files under Alice's folder and theme. *)
Definition nouns : ThemeCreate.t := ThemeCreate.mk "Nouns" None 0.

Definition bob_theme : Theme.t :=
  Theme.mk 2 "Nouns" (Some 1700000000000000) 0 1.

Definition estar : RecordCreate.t :=
  RecordCreate.mk "estar" (Some "to be") None 5.

Definition bob_record : Record_.t :=
  Record_.mk 2 "estar" (Some "to be") (Some 1700000000000000) 5 1.

(** A knowledge queue request that asks for an alert in 2027 and claims a
    creation time of its own, and the entry stored for it at [env0]. *)
Definition review_verbs : KnowledgeQueueCreate.t :=
  KnowledgeQueueCreate.mk "review verbs" false 0
    (Some 1500000000000000) (Some 1800000000000000).

Definition review_verbs_entry : KnowledgeQueue.t :=
  KnowledgeQueue.mk 1 "review verbs" false 0
    (Some 1700000000000000) (Some 1700000000000250) 1.

(** The token issued to Alice at [env0] with a time to live of minus one
    second. *)
Definition past_token : Token :=
  jwt_encode (H := reference_platform)
    (mkClaims (Some "alice") (Some 1699999999)) "s3cr3t" "HS256".

(** Alice's token with the last byte of its signature changed. *)
Definition tampered_token : Token :=
  Compact "HS256" alice_claims "hmac(s3cr3t,HS256,alice,1700001800(".

(** A clock reading 1800 seconds after [env0], the last second of the
    tokens issued at [env0], and one a second later. *)
Definition env_last : Env :=
  mkEnv 1700001800999999 1700001800999999 "salt" None None.

Definition env_late : Env :=
  mkEnv 1700001801000000 1700001801000000 "salt" None None.

(** Alice's knowledge queue entry in the store. *)
Definition db3 : DB :=
  mkDB [alice_row; bob_row] [alice_folder] [alice_theme] [alice_record]
       [review_verbs_entry].

(** A password the hasher refuses: "pw" followed by a NUL. *)
Definition nul_password : string := String "p" (String "w" (String Ascii.zero "")).

(** ** Tactics *)

(** Unfolds the monad and the session operations and reduces what a
    request on a known session shape computes. *)
Ltac step_handler :=
  cbv beta iota zeta delta
      [bind ret raise try_except ask get_session put_session utcnow
       db_add db_commit db_refresh db_rollback select_first select_all
       get_db store pending fst snd table pk set_pk entity
       User_Model Folder_Model Theme_Model Record_Model KnowledgeQueue_Model
       except_Exception except_IntegrityError except_JWTError
       bad_request invalid_credentials];
  cbn [flush insert_entity column_defaults or_default app
       User.id User.login User.password
       Folder.id Folder.text_folder Folder.number_of_topics
       Folder.last_open_date_time Folder.user_id
       Theme.id Theme.name_theme Theme.last_open_date_time
       Theme.number_of_records Theme.folder_id
       Record_.id Record_.name_record Record_.text_records
       Record_.last_open_date_time Record_.count_text Record_.theme_id
       KnowledgeQueue.id KnowledgeQueue.content_knowledge_queue
       KnowledgeQueue.completed_task_status KnowledgeQueue.number_of_cycles
       KnowledgeQueue.create_date_time KnowledgeQueue.next_alert_card
       KnowledgeQueue.user_id
       users folders themes records knowledge_queues].

(** Rewrites the read-back of the row a handler has just flushed, given the
    instance [lem] of [find_fresh_row] for the class [M] of the row. *)
Ltac read_back lem M :=
  let Hf := fresh "Hf" in
  pose proof lem as Hf;
  cbv beta iota zeta delta [pk M] in Hf;
  cbn [User.id Folder.id Theme.id Record_.id KnowledgeQueue.id] in Hf;
  rewrite Hf; clear Hf.

(** A create handler [h] whose run [Hrun] returned has met no store fault:
    proves [commit_fault env = None /\ refresh_fault env = None]. *)
Ltac returned_without_fault Hrun h env :=
  unfold h in Hrun; revert Hrun; step_handler;
  destruct (commit_fault env) as [[|]|]; [step_handler; discriminate ..|];
  step_handler;
  destruct (refresh_fault env) as [[|]|]; [step_handler; discriminate ..|];
  now split.

(** Splits a run of a create handler on what the store answers. *)
Ltac store_answers env :=
  step_handler;
  destruct (commit_fault env) as [[|]|]; step_handler;
  [ | | destruct (refresh_fault env) as [[|]|]; step_handler;
        [ | | match goal with
              | |- context [find ?p ?l] => destruct (find p l)
              end; step_handler ] ].

(** * Properties *)

(** ** Primary keys and lookups *)

Section PrimaryKeys.

Context {R : Type} `{Model R}.

Lemma fold_max_ge (rows : list R) (r : R) :
  In r rows -> pk r <= fold_right Z.max 0 (map pk rows).
Proof.
  induction rows as [|x rows IH]; cbn [In map fold_right]; intros Hin.
  - contradiction.
  - destruct Hin as [-> | Hin]; [lia | specialize (IH Hin); lia].
Qed.

Lemma next_pk_fresh (rows : list R) (r : R) :
  In r rows -> pk r < next_pk rows.
Proof.
  intros Hin. unfold next_pk. pose proof (fold_max_ge rows r Hin). lia.
Qed.

Lemma find_after (p : R -> bool) (rows : list R) (obj : R) :
  (forall r, In r rows -> p r = false) -> p obj = true ->
  find p (rows ++ [obj]) = Some obj.
Proof.
  intros Hrows Hobj.
  induction rows as [|x rows IH]; cbn [app find].
  - now rewrite Hobj.
  - rewrite (Hrows x (or_introl eq_refl)).
    apply IH. intros r Hr. apply Hrows. now right.
Qed.

(** The row a flush has just appended is the one a refresh reads back. *)
Lemma find_fresh_row (rows : list R) (obj : R) :
  pk obj = next_pk rows ->
  find (fun r => Z.eqb (pk r) (pk obj)) (rows ++ [obj]) = Some obj.
Proof.
  intros Hpk. apply find_after.
  - intros r Hr. pose proof (next_pk_fresh rows r Hr). apply Z.eqb_neq. lia.
  - apply Z.eqb_refl.
Qed.

End PrimaryKeys.

(** [find] and [existsb] agree on whether a row satisfies the predicate. *)
Lemma find_none_existsb {A} (p : A -> bool) (l : list A) :
  find p l = None -> existsb p l = false.
Proof.
  induction l as [|x l IH]; cbn [find existsb]; [reflexivity|].
  destruct (p x); [discriminate | exact IH].
Qed.

Lemma find_some_existsb {A} (p : A -> bool) (l : list A) (x : A) :
  find p l = Some x -> existsb p l = true.
Proof.
  intros Hf. apply find_some in Hf. apply existsb_exists. now exists x.
Qed.

(** ** What the create handlers do when the store raises nothing *)

Section Runs.

Context `{P : Platform}.

Variables (env : Env) (d : DB).
Hypothesis commit_ok : commit_fault env = None.
Hypothesis refresh_ok : refresh_fault env = None.

Lemma create_user_run (user : UserCreate.t) :
  lookup_login d (UserCreate.login user) = None ->
  let row := User.mk (next_pk (users d)) (UserCreate.login user)
               (pwd_context_hash (salt env) (UserCreate.password user)) in
  create_user user env (get_db d)
  = (Return (mkCreated 201 row),
     get_db (mkDB (users d ++ [row]) (folders d) (themes d) (records d)
                  (knowledge_queues d))).
Proof.
  intros Hnew row. subst row. unfold create_user, get_password_hash. step_handler.
  rewrite commit_ok. step_handler.
  rewrite (find_none_existsb _ _ Hnew). step_handler. rewrite refresh_ok.
  read_back (find_fresh_row (H := User_Model) (users d)
               (User.mk (next_pk (users d)) (UserCreate.login user)
                  (pwd_context_hash (salt env) (UserCreate.password user)))
               eq_refl) User_Model.
  reflexivity.
Qed.

Lemma add_folder_run (folder_data : FolderBase.t) (user_id : Z) :
  let row := Folder.mk (next_pk (folders d)) (FolderBase.text_folder folder_data)
               (FolderBase.number_of_topics folder_data) (Some (now env)) user_id in
  add_folder folder_data user_id env (get_db d)
  = (Return row,
     get_db (mkDB (users d) (folders d ++ [row]) (themes d) (records d)
                  (knowledge_queues d))).
Proof.
  intros row. subst row. unfold add_folder. step_handler.
  rewrite commit_ok. step_handler. rewrite refresh_ok.
  read_back (find_fresh_row (H := Folder_Model) (folders d)
               (Folder.mk (next_pk (folders d))
                  (FolderBase.text_folder folder_data)
                  (FolderBase.number_of_topics folder_data)
                  (Some (now env)) user_id)
               eq_refl) Folder_Model.
  reflexivity.
Qed.

Lemma add_theme_run (theme_data : ThemeCreate.t) (folder_id : Z) :
  let row := Theme.mk (next_pk (themes d)) (ThemeCreate.name_theme theme_data)
               (Some (now env)) (ThemeCreate.number_of_records theme_data)
               folder_id in
  add_theme theme_data folder_id env (get_db d)
  = (Return row,
     get_db (mkDB (users d) (folders d) (themes d ++ [row]) (records d)
                  (knowledge_queues d))).
Proof.
  intros row. subst row. unfold add_theme. step_handler.
  rewrite commit_ok. step_handler. rewrite refresh_ok.
  read_back (find_fresh_row (H := Theme_Model) (themes d)
               (Theme.mk (next_pk (themes d)) (ThemeCreate.name_theme theme_data)
                  (Some (now env)) (ThemeCreate.number_of_records theme_data)
                  folder_id)
               eq_refl) Theme_Model.
  reflexivity.
Qed.

Lemma add_record_run (record_data : RecordCreate.t) (theme_id : Z) :
  let row := Record_.mk (next_pk (records d)) (RecordCreate.name_record record_data)
               (RecordCreate.text_records record_data) (Some (now env))
               (RecordCreate.count_text record_data) theme_id in
  add_record record_data theme_id env (get_db d)
  = (Return row,
     get_db (mkDB (users d) (folders d) (themes d) (records d ++ [row])
                  (knowledge_queues d))).
Proof.
  intros row. subst row. unfold add_record. step_handler.
  rewrite commit_ok. step_handler. rewrite refresh_ok.
  read_back (find_fresh_row (H := Record_Model) (records d)
               (Record_.mk (next_pk (records d))
                  (RecordCreate.name_record record_data)
                  (RecordCreate.text_records record_data) (Some (now env))
                  (RecordCreate.count_text record_data) theme_id)
               eq_refl) Record_Model.
  reflexivity.
Qed.

(** The entry is staged with a null next alert and inserted with the
    default of the column. *)
Lemma add_knowledge_queue_run (queue_data : KnowledgeQueueCreate.t) (user_id : Z) :
  let row := KnowledgeQueue.mk (next_pk (knowledge_queues d))
               (KnowledgeQueueCreate.content_knowledge_queue queue_data)
               (KnowledgeQueueCreate.completed_task_status queue_data)
               (KnowledgeQueueCreate.number_of_cycles queue_data)
               (Some (now env)) (Some (commit_time env)) user_id in
  add_knowledge_queue queue_data user_id env (get_db d)
  = (Return row,
     get_db (mkDB (users d) (folders d) (themes d) (records d)
                  (knowledge_queues d ++ [row]))).
Proof.
  intros row. subst row. unfold add_knowledge_queue. step_handler.
  rewrite commit_ok. step_handler. rewrite refresh_ok.
  read_back (find_fresh_row (H := KnowledgeQueue_Model) (knowledge_queues d)
               (KnowledgeQueue.mk (next_pk (knowledge_queues d))
                  (KnowledgeQueueCreate.content_knowledge_queue queue_data)
                  (KnowledgeQueueCreate.completed_task_status queue_data)
                  (KnowledgeQueueCreate.number_of_cycles queue_data)
                  (Some (now env)) (Some (commit_time env)) user_id)
               eq_refl) KnowledgeQueue_Model.
  reflexivity.
Qed.

End Runs.

(** ** Folders *)

(** C7.  A folder created for user [U] is in the listing of [U] on the
    store the creation left, and in the listing of no other user. *)
Theorem folder_listing_owner_scoped
    (folder_data : FolderBase.t) (U : Z) (env : Env) (d : DB)
    (folder : Folder.t) (s' : AsyncSession) :
  add_folder folder_data U env (get_db d) = (Return folder, s') ->
  (forall env1, exists listing,
      fst (get_user_folders U env1 (get_db (store s'))) = Return listing
      /\ In folder listing)
  /\ (forall U2 env2, U2 <> U -> exists listing,
      fst (get_user_folders U2 env2 (get_db (store s'))) = Return listing
      /\ ~ In folder listing).
Proof.
  intros Hrun.
  assert (Hf : commit_fault env = None /\ refresh_fault env = None).
  { returned_without_fault Hrun add_folder env. }
  destruct Hf as [Hc Hr].
  rewrite (add_folder_run env d Hc Hr) in Hrun.
  injection Hrun as <- <-. split.
  - intros env1. eexists. split; [reflexivity|].
    step_handler. apply filter_In. split.
    + apply in_or_app. right. now left.
    + cbn [Folder.user_id]. apply Z.eqb_refl.
  - intros U2 env2 Hneq. eexists. split; [reflexivity|].
    step_handler. intros Hin. apply filter_In in Hin. destruct Hin as [_ Heq].
    cbn [Folder.user_id] in Heq. apply Z.eqb_eq in Heq. congruence.
Qed.

(** Bob creates a folder next to Alice's: he lists both of his, she does
    not see it. *)
Lemma folder_listing_owner_scoped_witness :
  add_folder french 2 env0 (get_db db1) = (Return bob_folder, get_db db2)
  /\ (exists listing,
        fst (get_user_folders 2 env0 (get_db db2)) = Return listing
        /\ In bob_folder listing)
  /\ (exists listing,
        fst (get_user_folders 1 env0 (get_db db2)) = Return listing
        /\ ~ In bob_folder listing).
Proof.
  split; [reflexivity|].
  pose proof (folder_listing_owner_scoped french 2 env0 db1 bob_folder (get_db db2)
                eq_refl) as [Hown Hother].
  split; [exact (Hown env0) | apply (Hother 1 env0); lia].
Defined.

(** ** Knowledge queue *)

(** C9, as the code has it.  The entry a knowledge queue creation returns
    is the stored one and its creation time is the clock reading of the
    service; the next alert the service sets to null is stored and returned
    as the time of the insert, the default of the column. *)
Theorem knowledge_queue_next_alert_takes_default
    (queue_data : KnowledgeQueueCreate.t) (user_id : Z) (env : Env) (d : DB)
    (entry : KnowledgeQueue.t) (s' : AsyncSession) :
  add_knowledge_queue queue_data user_id env (get_db d) = (Return entry, s') ->
  KnowledgeQueue.next_alert_card entry = Some (commit_time env)
  /\ KnowledgeQueue.create_date_time entry = Some (now env)
  /\ knowledge_queues (store s') = knowledge_queues d ++ [entry].
Proof.
  intros Hrun.
  assert (Hf : commit_fault env = None /\ refresh_fault env = None).
  { returned_without_fault Hrun add_knowledge_queue env. }
  destruct Hf as [Hc Hr].
  rewrite (add_knowledge_queue_run env d Hc Hr) in Hrun.
  injection Hrun as <- <-. repeat split.
Qed.

Lemma knowledge_queue_next_alert_takes_default_witness :
  add_knowledge_queue review_verbs 1 env0 (get_db db1)
  = (Return review_verbs_entry,
     get_db (mkDB (users db1) (folders db1) (themes db1) (records db1)
                  [review_verbs_entry]))
  /\ KnowledgeQueue.next_alert_card review_verbs_entry = Some 1700000000000250.
Proof.
  split; [reflexivity|].
  apply (knowledge_queue_next_alert_takes_default review_verbs 1 env0 db1
           review_verbs_entry
           (get_db (mkDB (users db1) (folders db1) (themes db1) (records db1)
                         [review_verbs_entry]))
           eq_refl).
Defined.

Section Registration.

Context `{P : Platform}.

(** C10.  A successful registration answers with the row it stored, field
    for field: the only new row of [users] is the returned one, and its
    password column holds the hash of the submitted password. *)
Theorem registration_returns_stored_hash
    (user : UserCreate.t) (env : Env) (d : DB)
    (resp : Created) (s' : AsyncSession) :
  add_user user env (get_db d) = (Return resp, s') ->
  status resp = 201
  /\ users (store s') = users d ++ [data resp]
  /\ User.login (data resp) = UserCreate.login user
  /\ User.password (data resp)
     = pwd_context_hash (salt env) (UserCreate.password user).
Proof.
  intros Hrun.
  assert (Hnew : lookup_login d (UserCreate.login user) = None).
  { unfold add_user, check_unique_login in Hrun. revert Hrun. step_handler.
    unfold lookup_login.
    destruct (find _ (users d)); [step_handler; discriminate | reflexivity]. }
  assert (Hrun' : create_user user env (get_db d) = (Return resp, s')).
  { unfold add_user, check_unique_login in Hrun. revert Hrun. step_handler.
    unfold lookup_login in Hnew. rewrite Hnew. step_handler.
    destruct (create_user user env (get_db d)) as [[a|e] s1]; trivial. }
  assert (Hf : commit_fault env = None /\ refresh_fault env = None).
  { clear Hrun. unfold create_user, get_password_hash in Hrun'. revert Hrun'.
    step_handler.
    destruct (commit_fault env) as [[|]|]; [step_handler; discriminate ..|].
    step_handler. rewrite (find_none_existsb _ _ Hnew). step_handler.
    destruct (refresh_fault env) as [[|]|]; [step_handler; discriminate ..|].
    now split. }
  destruct Hf as [Hc Hr].
  rewrite (create_user_run env d Hc Hr user Hnew) in Hrun'.
  injection Hrun' as <- <-. repeat split.
Qed.

End Registration.

Lemma registration_returns_stored_hash_witness :
  add_user (P := reference_platform) alice env0 (get_db empty_db)
  = (Return (mkCreated 201 alice_row), get_db (mkDB [alice_row] [] [] [] []))
  /\ User.password alice_row = "$2b$12$salt$pw1"
  /\ User.password alice_row <> UserCreate.password alice.
Proof.
  split; [reflexivity|]. split; [|discriminate].
  apply (registration_returns_stored_hash (P := reference_platform) alice env0
           empty_db (mkCreated 201 alice_row)
           (get_db (mkDB [alice_row] [] [] [] [])) eq_refl).
Defined.

(** ** Identity resolution *)

Section Identity.

Context `{P : Platform}.

Lemma jwt_decode_accepted (token : Token) (t : datetime) (c : Claims) :
  jwt_decode token SECRET_KEY [ALGORITHM] t = inr c <-> token_accepted token t c.
Proof.
  unfold token_accepted. split.
  - destruct token as [raw | alg c' sig]; cbn [jwt_decode existsb]; [discriminate|].
    rewrite orb_false_r.
    destruct (String.eqb_spec alg ALGORITHM) as [-> | Hne];
      cbn [negb]; [|discriminate].
    destruct (String.eqb_spec sig (jws_sign SECRET_KEY ALGORITHM c')) as [-> | Hne];
      cbn [negb]; [|discriminate].
    destruct (exp c') as [e|] eqn:He.
    + destruct (Z.ltb_spec e (timegm t)); [discriminate|].
      intros [= <-]. eexists. repeat split. rewrite He. intros e' [= <-]. lia.
    + intros [= <-]. eexists. repeat split. rewrite He. discriminate.
  - intros (sig & -> & -> & Hexp). cbn [jwt_decode existsb].
    rewrite orb_false_r, !String.eqb_refl. cbn [negb].
    destruct (exp c) as [e|]; [|reflexivity].
    specialize (Hexp e eq_refl).
    destruct (Z.ltb_spec e (timegm t)); [lia | reflexivity].
Qed.

(** Resolving the identity reads the store and never writes the session. *)
Lemma get_current_user_run (cookie : option Token) (env : Env) (s : AsyncSession) :
  get_current_user cookie env s
  = (match cookie with
     | None => Raise credentials_exception
     | Some token =>
         match jwt_decode token SECRET_KEY [ALGORITHM] (now env) with
         | inl _ => Raise credentials_exception
         | inr c =>
             match sub c with
             | None => Raise credentials_exception
             | Some username =>
                 match lookup_login (store s) username with
                 | None => Raise credentials_exception
                 | Some user => Return user
                 end
             end
         end
     end, s).
Proof.
  unfold get_current_user, get_user, lookup_login.
  destruct cookie as [token|]; [|reflexivity]. step_handler.
  destruct (jwt_decode token SECRET_KEY [ALGORITHM] (now env)) as [k|c];
    step_handler; [destruct s; reflexivity|].
  destruct (sub c) as [username|]; step_handler; [|destruct s; reflexivity].
  destruct s as [d pend]. cbn [users].
  destruct (find _ (users d)); reflexivity.
Qed.

(** C4, as the code has it.  The resolver returns the user whose login is the
    subject of the token when the token is well formed, carries the
    signature the key gives, has an expiry not earlier than the clock in
    whole seconds, and its subject is a registered login; in every other
    case, and so for an absent cookie, a string that is not a token, other
    signature bytes, an expiry earlier than the second of the clock or an
    unknown subject, it raises the one credentials exception. *)
Theorem get_current_user_resolves (cookie : option Token) (env : Env) (d : DB) :
  (forall token c s u,
      cookie = Some token -> token_accepted token (now env) c ->
      sub c = Some s -> lookup_login d s = Some u ->
      get_current_user cookie env (get_db d) = (Return u, get_db d)
      /\ User.login u = s)
  /\ (~ (exists token c s u,
           cookie = Some token /\ token_accepted token (now env) c
           /\ sub c = Some s /\ lookup_login d s = Some u) ->
      get_current_user cookie env (get_db d)
      = (Raise credentials_exception, get_db d))
  /\ (cookie = None ->
      get_current_user cookie env (get_db d)
      = (Raise credentials_exception, get_db d))
  /\ (forall raw, cookie = Some (Opaque raw) ->
      get_current_user cookie env (get_db d)
      = (Raise credentials_exception, get_db d))
  /\ (forall alg c sig,
      cookie = Some (Compact alg c sig) -> sig <> jws_sign SECRET_KEY alg c ->
      get_current_user cookie env (get_db d)
      = (Raise credentials_exception, get_db d))
  /\ (forall alg c sig e,
      cookie = Some (Compact alg c sig) -> exp c = Some e -> e < timegm (now env) ->
      get_current_user cookie env (get_db d)
      = (Raise credentials_exception, get_db d))
  /\ (forall alg c sig s,
      cookie = Some (Compact alg c sig) -> sub c = Some s ->
      lookup_login d s = None ->
      get_current_user cookie env (get_db d)
      = (Raise credentials_exception, get_db d)).
Proof.
  assert (Hother :
    ~ (exists token c s u,
           cookie = Some token /\ token_accepted token (now env) c
           /\ sub c = Some s /\ lookup_login d s = Some u) ->
      get_current_user cookie env (get_db d)
      = (Raise credentials_exception, get_db d)).
  { intros Hno. rewrite get_current_user_run. cbn [get_db store].
    destruct cookie as [token|]; [|reflexivity].
    destruct (jwt_decode token SECRET_KEY [ALGORITHM] (now env)) as [k|c] eqn:Hd;
      [reflexivity|].
    destruct (sub c) as [s|] eqn:Hs; [|reflexivity].
    destruct (lookup_login d s) as [u|] eqn:Hu; [|reflexivity].
    exfalso. apply Hno. exists token, c, s, u.
    repeat split; trivial. now apply jwt_decode_accepted. }
  split; [|split; [exact Hother|]].
  - intros token c s u -> Hacc Hs Hu. split.
    + rewrite get_current_user_run. cbn [get_db store].
      apply jwt_decode_accepted in Hacc. now rewrite Hacc, Hs, Hu.
    + unfold lookup_login in Hu. apply find_some in Hu.
      now apply String.eqb_eq.
  - repeat split.
    + intros ->. apply Hother. intros (token & c & s & u & [=] & _).
    + intros raw ->. apply Hother.
      intros (token & c & s & u & [= <-] & (sig & [=] & _) & _).
    + intros alg c sig -> Hsig. apply Hother.
      intros (token & c' & s & u & [= <-] & (sig' & [= -> -> ->] & -> & _) & _).
      now apply Hsig.
    + intros alg c sig e -> He Hlt. apply Hother.
      intros (token & c' & s & u & [= <-] & (sig' & [= -> -> ->] & _ & Hexp) & _).
      specialize (Hexp e He). lia.
    + intros alg c sig s -> Hs Hu. apply Hother.
      intros (token & c' & s' & u & [= <-] & (sig' & [= -> -> ->] & _) & Hs' & Hu').
      congruence.
Qed.

End Identity.

(** Alice's token resolves to Alice's row; with one byte of the signature
    changed it is refused. *)
Lemma get_current_user_resolves_witness :
  (get_current_user (P := reference_platform) (Some alice_token) env0 (get_db db1)
   = (Return alice_row, get_db db1)
   /\ User.login alice_row = "alice")
  /\ get_current_user (P := reference_platform) (Some tampered_token) env0 (get_db db1)
     = (Raise credentials_exception, get_db db1).
Proof.
  split.
  - apply (proj1 (get_current_user_resolves (P := reference_platform)
                    (Some alice_token) env0 db1)
                 alice_token alice_claims "alice" alice_row eq_refl).
    + exists "hmac(s3cr3t,HS256,alice,1700001800)".
      split; [reflexivity|]. split; [reflexivity|].
      intros e [= <-]. vm_compute. discriminate.
    + reflexivity.
    + reflexivity.
  - apply (proj1 (proj2 (proj2 (proj2 (proj2
             (get_current_user_resolves (P := reference_platform)
                (Some tampered_token) env0 db1)))))
             "HS256" alice_claims "hmac(s3cr3t,HS256,alice,1700001800(" eq_refl).
    discriminate.
Defined.

(** Alice's token names the instant 1700001800 s as its expiry; 999999
    microseconds past that instant it still resolves to Alice. *)
Lemma token_past_expiry_still_resolves :
  past_expiry alice_claims (now env_last)
  /\ get_current_user (P := reference_platform) (Some alice_token) env_last
       (get_db db1)
     = (Return alice_row, get_db db1).
Proof.
  split; [|reflexivity].
  exists 1700001800. split; [reflexivity|]. vm_compute. discriminate.
Qed.

(** ** Login *)

Section Login.

Context `{P : Platform}.

Lemma authenticate_user_run (username password : string) (env : Env) (s : AsyncSession) :
  authenticate_user username password env s
  = (match lookup_login (store s) username with
     | None => Return None
     | Some u =>
         match pwd_context_verify password (User.password u) with
         | Some true => Return (Some u)
         | Some false => Return None
         | None => Raise PasswordValueError
         end
     end, s).
Proof.
  unfold authenticate_user, get_user, verify_password, lookup_login.
  step_handler. destruct s as [d pend]. cbn [users].
  destruct (find _ (users d)) as [u|]; [|reflexivity].
  step_handler.
  now destruct (pwd_context_verify password (User.password u)) as [[|]|].
Qed.

(** When the hasher answers that the password does not verify, a login with
    an unknown username and a login with a known one raise the same
    exception and leave the same session, whatever the two environments
    are. *)
Lemma login_failure_indistinguishable
    (unknown mismatch : UserInDB.t) (env1 env2 : Env) (d : DB) (u : User.t) :
  lookup_login d (UserInDB.username unknown) = None ->
  lookup_login d (UserInDB.username mismatch) = Some u ->
  pwd_context_verify (UserInDB.hashed_password mismatch) (User.password u)
  = Some false ->
  login_for_access_token unknown env1 (get_db d)
  = (Raise invalid_credentials, get_db d)
  /\ login_for_access_token mismatch env2 (get_db d)
     = login_for_access_token unknown env1 (get_db d).
Proof.
  intros Hunknown Hknown Hverify.
  assert (H1 : login_for_access_token unknown env1 (get_db d)
               = (Raise invalid_credentials, get_db d)).
  { unfold login_for_access_token, bind.
    rewrite authenticate_user_run. cbn [get_db store].
    now rewrite Hunknown. }
  split; [exact H1|]. rewrite H1.
  unfold login_for_access_token, bind.
  rewrite authenticate_user_run. cbn [get_db store].
  now rewrite Hknown, Hverify.
Qed.

(** C3, as the code has it.  A login with an unknown username raises the
    invalid credentials exception; a login with a known username and a
    password the hasher refuses raises the exception of the hasher, which
    nothing catches.  The two failures differ, and tell a known login from
    an unknown one. *)
Theorem login_failure_reveals_known_login
    (unknown known : UserInDB.t) (env1 env2 : Env) (d : DB) (u : User.t) :
  lookup_login d (UserInDB.username unknown) = None ->
  lookup_login d (UserInDB.username known) = Some u ->
  pwd_context_verify (UserInDB.hashed_password known) (User.password u) = None ->
  login_for_access_token unknown env1 (get_db d)
  = (Raise invalid_credentials, get_db d)
  /\ login_for_access_token known env2 (get_db d)
     = (Raise PasswordValueError, get_db d)
  /\ fst (login_for_access_token known env2 (get_db d))
     <> fst (login_for_access_token unknown env1 (get_db d)).
Proof.
  intros Hunknown Hknown Hraises.
  assert (H1 : login_for_access_token unknown env1 (get_db d)
               = (Raise invalid_credentials, get_db d)).
  { unfold login_for_access_token, bind.
    rewrite authenticate_user_run. cbn [get_db store].
    now rewrite Hunknown. }
  assert (H2 : login_for_access_token known env2 (get_db d)
               = (Raise PasswordValueError, get_db d)).
  { unfold login_for_access_token, bind.
    rewrite authenticate_user_run. cbn [get_db store].
    now rewrite Hknown, Hraises. }
  split; [exact H1 | split; [exact H2|]].
  rewrite H1, H2. cbn [fst]. discriminate.
Qed.

(** ** Expiry of the issued tokens *)

Lemma timegm_add_minutes (t m : Z) :
  timegm (t + timedelta_minutes m) = timegm t + 60 * m.
Proof.
  unfold timegm, timedelta_minutes.
  replace (t + m * 60000000) with (t + (60 * m) * 1000000) by lia.
  apply Z.div_add. lia.
Qed.

(** C5, as the code has it.  A token issued with a time to live that is not
    zero carries the expiry [issue time + ttl] in whole seconds, and
    [jwt.decode] reports it expired exactly when the clock, in whole
    seconds, is past that expiry; so a token issued with a time to live of
    minus one second or less is reported expired at its issue and ever
    after. *)
Theorem token_expires_after_issue_plus_ttl
    (data : Claims) (ttl : timedelta) (env : Env) (s : AsyncSession) (t : datetime) :
  ttl <> 0 ->
  let claims := mkClaims (sub data) (Some (timegm (now env + ttl))) in
  let token := jwt_encode claims SECRET_KEY ALGORITHM in
  create_access_token data (Some ttl) env s = (Return token, s)
  /\ (jwt_decode token SECRET_KEY [ALGORITHM] t = inl Expired
      <-> timegm (now env + ttl) < timegm t)
  /\ (jwt_decode token SECRET_KEY [ALGORITHM] t = inr claims
      <-> timegm t <= timegm (now env + ttl))
  /\ (ttl <= -1000000 -> now env <= t ->
      jwt_decode token SECRET_KEY [ALGORITHM] t = inl Expired).
Proof.
  intros Httl claims token.
  assert (Hdec : jwt_decode token SECRET_KEY [ALGORITHM] t
                 = if Z.ltb (timegm (now env + ttl)) (timegm t)
                   then inl Expired else inr claims).
  { subst token claims. unfold jwt_encode. cbn [jwt_decode existsb exp].
    now rewrite orb_false_r, !String.eqb_refl. }
  split; [|split; [|split]].
  - unfold create_access_token. step_handler. cbn [timedelta_truthy].
    apply Z.eqb_neq in Httl. now rewrite Httl.
  - rewrite Hdec.
    destruct (Z.ltb_spec (timegm (now env + ttl)) (timegm t)); split;
      try discriminate; trivial; lia.
  - rewrite Hdec.
    destruct (Z.ltb_spec (timegm (now env + ttl)) (timegm t)); split;
      try discriminate; trivial; lia.
  - intros Hneg Hlater. rewrite Hdec.
    assert (Hlt : timegm (now env + ttl) < timegm t);
      [|now apply Z.ltb_lt in Hlt; rewrite Hlt].
    unfold timegm.
    assert (H1 : (now env + ttl) / 1000000 <= (now env - 1 * 1000000) / 1000000)
      by (apply Z.div_le_mono; lia).
    assert (H2 : now env / 1000000 <= t / 1000000)
      by (apply Z.div_le_mono; lia).
    unfold Z.sub in H1. rewrite <- Z.mul_opp_l, Z.div_add in H1 by lia. lia.
Qed.

(** The zero time to live is the case the test [if expires_delta:] takes for
    an absent one: with a positive configured lifetime, the token issued
    for [timedelta(0)] expires that lifetime after its issue and is accepted
    when decoded at once. *)
Lemma zero_ttl_token_gets_default_lifetime
    (data : Claims) (env : Env) (s : AsyncSession) :
  0 < ACCESS_TOKEN_EXPIRE_MINUTES ->
  exists token c e,
    create_access_token data (Some 0) env s = (Return token, s)
    /\ jwt_decode token SECRET_KEY [ALGORITHM] (now env) = inr c
    /\ sub c = sub data
    /\ exp c = Some e
    /\ e = timegm (now env) + 60 * ACCESS_TOKEN_EXPIRE_MINUTES
    /\ timegm (now env) < e.
Proof.
  intros Hpos.
  exists (jwt_encode
            (mkClaims (sub data)
               (Some (timegm (now env + timedelta_minutes ACCESS_TOKEN_EXPIRE_MINUTES))))
            SECRET_KEY ALGORITHM).
  eexists. exists (timegm (now env) + 60 * ACCESS_TOKEN_EXPIRE_MINUTES).
  split; [reflexivity|]. split.
  - apply jwt_decode_accepted. eexists. split; [reflexivity|]. split; [reflexivity|].
    cbn [exp]. intros e [= <-]. rewrite timegm_add_minutes. lia.
  - cbn [sub exp]. rewrite timegm_add_minutes. repeat split. lia.
Qed.

(** A token that expires in the second of its issue is accepted for the
    rest of that second: the expiry is refused only once it is past. *)
Lemma token_accepted_during_expiry_second (c : Claims) (t e : Z) :
  exp c = Some e -> e = timegm t ->
  jwt_decode (jwt_encode c SECRET_KEY ALGORITHM) SECRET_KEY [ALGORITHM] t = inr c.
Proof.
  intros He Heq. apply jwt_decode_accepted. eexists.
  split; [reflexivity|]. split; [reflexivity|].
  intros e' He'. rewrite He in He'. injection He' as <-. lia.
Qed.

End Login.

(** With the same refused password, Mallory, who is not registered, and
    Alice, who is, get different answers. *)
Lemma login_failure_reveals_known_login_witness :
  login_for_access_token (P := reference_platform)
    (UserInDB.mk "mallory" nul_password) env0 (get_db db1)
  = (Raise invalid_credentials, get_db db1)
  /\ login_for_access_token (P := reference_platform)
       (UserInDB.mk "alice" nul_password) env0 (get_db db1)
     = (Raise PasswordValueError, get_db db1).
Proof.
  pose proof (login_failure_reveals_known_login (P := reference_platform)
                (UserInDB.mk "mallory" nul_password)
                (UserInDB.mk "alice" nul_password)
                env0 env0 db1 alice_row eq_refl eq_refl eq_refl)
    as (Hunknown & Hknown & _).
  split; [exact Hunknown | exact Hknown].
Defined.

(** With a password the hasher takes, an unknown user and Alice with a
    wrong password get the same answer. *)
Lemma login_failure_indistinguishable_witness :
  login_for_access_token (P := reference_platform)
    (UserInDB.mk "mallory" "pw1") env0 (get_db db1)
  = (Raise invalid_credentials, get_db db1)
  /\ login_for_access_token (P := reference_platform)
       (UserInDB.mk "alice" "pw2") env_down (get_db db1)
     = login_for_access_token (P := reference_platform)
         (UserInDB.mk "mallory" "pw1") env0 (get_db db1).
Proof.
  apply (login_failure_indistinguishable (P := reference_platform)
           (UserInDB.mk "mallory" "pw1") (UserInDB.mk "alice" "pw2")
           env0 env_down db1 alice_row);
    reflexivity.
Defined.

(** Issued to Alice at [env0] with a time to live of minus one second, the
    token carries the second before and is refused at its issue. *)
Lemma token_expires_after_issue_plus_ttl_witness :
  create_access_token (P := reference_platform)
    (mkClaims (Some "alice") None) (Some (-1000000)) env0 (get_db db1)
  = (Return past_token, get_db db1)
  /\ jwt_decode (H := reference_platform) past_token "s3cr3t" ["HS256"] (now env0)
     = inl Expired.
Proof.
  pose proof (token_expires_after_issue_plus_ttl (P := reference_platform)
                (mkClaims (Some "alice") None) (-1000000) env0 (get_db db1)
                (now env0)) as Hw.
  assert (Hne : -1000000 <> 0) by discriminate.
  destruct (Hw Hne) as (Hissue & _ & _ & Hpast).
  split; [exact Hissue|]. apply Hpast; [discriminate | apply Z.le_refl].
Defined.

(** At [env0] with a lifetime of 30 minutes, the token issued to Alice for
    [timedelta(0)] is the one a login issues: it expires 1800 seconds after
    its issue and is accepted at its issue. *)
Lemma zero_ttl_token_accepted_at_issue :
  create_access_token (P := reference_platform)
    (mkClaims (Some "alice") None) (Some 0) env0 (get_db db1)
  = (Return alice_token, get_db db1)
  /\ jwt_decode (H := reference_platform) alice_token "s3cr3t" ["HS256"] (now env0)
     = inr alice_claims
  /\ exp alice_claims = Some (timegm (now env0) + 1800).
Proof. repeat split. Qed.

(** ** Endpoints and the cookie *)

Section Endpoints.

Context `{P : Platform}.

(** C1, as the code has it.  The listing endpoints of themes and of records
    answer a request that carries no cookie with the rows of the parent. *)
Theorem themes_and_records_listed_without_cookie
    (folder_id theme_id : Z) (env : Env) (d : DB) :
  read_themes (mkRequest None) folder_id env (get_db d)
  = (Return (filter (fun t => Z.eqb (Theme.folder_id t) folder_id) (themes d)),
     get_db d)
  /\ read_records (mkRequest None) theme_id env (get_db d)
     = (Return (filter (fun r => Z.eqb (Record_.theme_id r) theme_id) (records d)),
        get_db d).
Proof. split; reflexivity. Qed.

(** The six endpoints that declare the dependency on [get_current_user]
    raise the credentials exception when the cookie is absent, before their
    body runs. *)
Lemma guarded_endpoints_reject_missing_cookie (env : Env) (d : DB) :
  (forall folder_data,
      add_one_folder (mkRequest None) folder_data env (get_db d)
      = (Raise credentials_exception, get_db d))
  /\ read_user_folders (mkRequest None) env (get_db d)
     = (Raise credentials_exception, get_db d)
  /\ (forall folder_id theme_data,
      create_theme (mkRequest None) folder_id theme_data env (get_db d)
      = (Raise credentials_exception, get_db d))
  /\ (forall theme_id record_data,
      create_record (mkRequest None) theme_id record_data env (get_db d)
      = (Raise credentials_exception, get_db d))
  /\ (forall queue_data,
      create_knowledge_queue (mkRequest None) queue_data env (get_db d)
      = (Raise credentials_exception, get_db d))
  /\ read_knowledge_queue (mkRequest None) env (get_db d)
     = (Raise credentials_exception, get_db d).
Proof. repeat split. Qed.

(** C8.  For a request authenticated as any user [u] and any parent id,
    theme and record creation store and return the row under that parent,
    and the listings return the rows of that parent to any request; the
    owner of the parent is never looked up. *)
Theorem theme_and_record_parent_unchecked
    (req : Request) (env : Env) (d : DB) (u : User.t)
    (folder_id theme_id : Z)
    (theme_data : ThemeCreate.t) (record_data : RecordCreate.t) :
  fst (get_current_user (access_token req) env (get_db d)) = Return u ->
  commit_fault env = None ->
  refresh_fault env = None ->
  let theme :=
    Theme.mk (next_pk (themes d)) (ThemeCreate.name_theme theme_data)
             (Some (now env)) (ThemeCreate.number_of_records theme_data)
             folder_id in
  let record :=
    Record_.mk (next_pk (records d)) (RecordCreate.name_record record_data)
               (RecordCreate.text_records record_data) (Some (now env))
               (RecordCreate.count_text record_data) theme_id in
  create_theme req folder_id theme_data env (get_db d)
  = (Return theme,
     get_db (mkDB (users d) (folders d) (themes d ++ [theme]) (records d)
                  (knowledge_queues d)))
  /\ create_record req theme_id record_data env (get_db d)
     = (Return record,
        get_db (mkDB (users d) (folders d) (themes d) (records d ++ [record])
                     (knowledge_queues d)))
  /\ (forall req' env',
      read_themes req' folder_id env' (get_db d)
      = (Return (filter (fun t => Z.eqb (Theme.folder_id t) folder_id) (themes d)),
         get_db d))
  /\ (forall req' env',
      read_records req' theme_id env' (get_db d)
      = (Return (filter (fun r => Z.eqb (Record_.theme_id r) theme_id) (records d)),
         get_db d)).
Proof.
  intros Hauth Hc Hr theme record.
  assert (Hauth' : get_current_user (access_token req) env (get_db d)
                   = (Return u, get_db d)).
  { rewrite get_current_user_run in Hauth |- *. cbn [fst] in Hauth.
    now rewrite Hauth. }
  split; [|split; [|split; reflexivity]].
  - unfold create_theme, bind. rewrite Hauth'.
    apply (add_theme_run env d Hc Hr).
  - unfold create_record, bind. rewrite Hauth'.
    apply (add_record_run env d Hc Hr).
Qed.

End Endpoints.

(** Alice's theme and record are listed for a request without a cookie. *)
Lemma alice_rows_listed_without_cookie :
  read_themes (mkRequest None) 1 env0 (get_db db1)
  = (Return [alice_theme], get_db db1)
  /\ read_records (mkRequest None) 1 env0 (get_db db1)
     = (Return [alice_record], get_db db1).
Proof. split; reflexivity. Qed.

(** Bob, with his own token, files a theme under Alice's folder and a record
    under Alice's theme. *)
Lemma theme_and_record_parent_unchecked_witness :
  fst (get_current_user (P := reference_platform) (Some bob_token) env0 (get_db db1))
  = Return bob_row
  /\ Folder.user_id alice_folder <> User.id bob_row
  /\ create_theme (P := reference_platform) (mkRequest (Some bob_token)) 1 nouns
       env0 (get_db db1)
     = (Return bob_theme,
        get_db (mkDB (users db1) (folders db1) [alice_theme; bob_theme]
                     (records db1) (knowledge_queues db1)))
  /\ create_record (P := reference_platform) (mkRequest (Some bob_token)) 1 estar
       env0 (get_db db1)
     = (Return bob_record,
        get_db (mkDB (users db1) (folders db1) (themes db1)
                     [alice_record; bob_record] (knowledge_queues db1)))
  /\ read_themes (mkRequest (Some bob_token)) 1 env0 (get_db db1)
     = (Return [alice_theme], get_db db1).
Proof.
  pose proof (theme_and_record_parent_unchecked (P := reference_platform)
                (mkRequest (Some bob_token)) env0 db1 bob_row 1 1 nouns estar
                eq_refl eq_refl eq_refl)
    as (Htheme & Hrecord & Hlist & _).
  split; [reflexivity|]. split; [discriminate|].
  split; [exact Htheme|]. split; [exact Hrecord|].
  exact (Hlist (mkRequest (Some bob_token)) env0).
Defined.

(** ** Registration conflicts *)

Section Conflicts.

Context `{P : Platform}.


(** ** Store exceptions at the repository boundary *)

(** C6, as the code has it.  An exception the store raises at the commit of
    a folder, theme, record or knowledge queue entry is caught: the session
    is rolled back, the store is as before and a 400 is raised.  One raised
    at the refresh is caught and answered in the same way, the pending
    objects being expunged.  For a user an integrity violation is caught,
    whether the environment or the unique constraint raises it, and any
    other exception of the commit leaves [create_user] as it was raised. *)
Theorem store_exceptions_at_repository_boundary
    (env : Env) (d : DB) (e : SQLAlchemyError) (user_id parent_id : Z)
    (user : UserCreate.t) (folder_data : FolderBase.t)
    (theme_data : ThemeCreate.t) (record_data : RecordCreate.t)
    (queue_data : KnowledgeQueueCreate.t) :
  (commit_fault env = Some e ->
     add_folder folder_data user_id env (get_db d)
     = (Raise (bad_request "Failed to add folder."), get_db d)
     /\ add_theme theme_data parent_id env (get_db d)
        = (Raise (bad_request "Failed to add theme."), get_db d)
     /\ add_record record_data parent_id env (get_db d)
        = (Raise (bad_request "Failed to add record."), get_db d)
     /\ add_knowledge_queue queue_data user_id env (get_db d)
        = (Raise (bad_request "Failed to add knowledge queue."), get_db d))
  /\ (commit_fault env = None -> refresh_fault env = Some e ->
     let caught {A} (detail : string) (r : Outcome A * AsyncSession) :=
       fst r = Raise (bad_request detail) /\ pending (snd r) = [] in
     caught "Failed to add folder."
            (add_folder folder_data user_id env (get_db d))
     /\ caught "Failed to add theme."
               (add_theme theme_data parent_id env (get_db d))
     /\ caught "Failed to add record."
               (add_record record_data parent_id env (get_db d))
     /\ caught "Failed to add knowledge queue."
               (add_knowledge_queue queue_data user_id env (get_db d)))
  /\ (commit_fault env = Some IntegrityError
      \/ (commit_fault env = None
          /\ lookup_login d (UserCreate.login user) <> None) ->
     create_user user env (get_db d)
     = (Raise (bad_request "A user with this login already exists."), get_db d))
  /\ (commit_fault env = Some e -> e <> IntegrityError ->
     fst (create_user user env (get_db d)) = Raise (StoreError e)
     /\ store (snd (create_user user env (get_db d))) = d).
Proof.
  split; [|split; [|split]].
  - intros Hc.
    unfold add_folder, add_theme, add_record, add_knowledge_queue.
    step_handler. rewrite Hc. repeat split.
  - intros Hc Hr.
    unfold add_folder, add_theme, add_record, add_knowledge_queue.
    step_handler. rewrite Hc. step_handler. rewrite Hr. repeat split.
  - intros [Hc | [Hc Htaken]];
      unfold create_user, get_password_hash; step_handler; rewrite Hc.
    + reflexivity.
    + step_handler. unfold lookup_login in Htaken.
      destruct (find _ (users d)) as [v|] eqn:Hfind; [|congruence].
      rewrite (find_some_existsb _ _ _ Hfind). reflexivity.
  - intros Hc Hne. unfold create_user, get_password_hash. step_handler.
    rewrite Hc. destruct e; [congruence|]. split; reflexivity.
Qed.

End Conflicts.



(** The commit of a folder and of a user meet a lost connection; the commit
    of a user by itself meets a taken login; the refresh of a folder meets
    a lost connection after its commit. *)
Lemma store_exceptions_at_repository_boundary_witness :
  add_folder french 2 env_down (get_db db1)
  = (Raise (bad_request "Failed to add folder."), get_db db1)
  /\ create_user (P := reference_platform) alice env0 (get_db db1)
     = (Raise (bad_request "A user with this login already exists."), get_db db1)
  /\ fst (create_user (P := reference_platform) alice env_down (get_db db1))
     = Raise (StoreError OperationalError)
  /\ (fst (add_folder french 2 env_cut (get_db db1))
      = Raise (bad_request "Failed to add folder.")
      /\ pending (snd (add_folder french 2 env_cut (get_db db1))) = []).
Proof.
  pose proof (store_exceptions_at_repository_boundary (P := reference_platform)
                env_down db1 OperationalError 2 1 alice french nouns estar
                review_verbs) as (Hcommit & _ & _ & Hother).
  pose proof (store_exceptions_at_repository_boundary (P := reference_platform)
                env0 db1 IntegrityError 2 1 alice french nouns estar
                review_verbs) as (_ & _ & Htaken & _).
  pose proof (store_exceptions_at_repository_boundary (P := reference_platform)
                env_cut db1 OperationalError 2 1 alice french nouns estar
                review_verbs) as (_ & Hrefresh & _ & _).
  split; [exact (proj1 (Hcommit eq_refl))|].
  split; [|split].
  - apply Htaken. right. split; [reflexivity | discriminate].
  - apply Hother; [reflexivity | discriminate].
  - exact (proj1 (Hrefresh eq_refl eq_refl)).
Defined.

(** A lost connection at the commit of a registration reaches the caller as
    the store raised it. *)
Lemma create_user_lets_store_exception_escape :
  add_user (P := reference_platform) alice env_down (get_db empty_db)
  = (Raise (StoreError OperationalError), get_db empty_db)
  /\ is_HTTPException (StoreError OperationalError) = false.
Proof. split; reflexivity. Qed.

(** ** The scenario of the specification

    Alice registers, logs in, creates the folder "Spanish" with the cookie
    the login set, and lists her folders. *)

Lemma scenario_register_login_folder :
  let P := reference_platform in
  let registered := mkDB [alice_row] [] [] [] [] in
  let spanish := Folder.mk 1 "Spanish" 0 (Some 1700000000000000) 1 in
  let with_folder := mkDB [alice_row] [spanish] [] [] [] in
  add_user alice env0 (get_db empty_db)
  = (Return (mkCreated 201 alice_row), get_db registered)
  /\ login_for_access_token (UserInDB.mk "alice" "pw1") env0 (get_db registered)
     = (Return (mkLoginResponse (mkTokenBody alice_token "bearer")
                                [("access_token", alice_token, true)]),
        get_db registered)
  /\ add_one_folder (mkRequest (Some alice_token))
       (FolderBase.mk "Spanish" 0 None) env0 (get_db registered)
     = (Return spanish, get_db with_folder)
  /\ read_user_folders (mkRequest (Some alice_token)) env0 (get_db with_folder)
     = (Return [spanish], get_db with_folder).
Proof. repeat split. Qed.

(** * Further properties *)

(** ** Login and the life of its token *)

Section LoginToken.

Context `{P : Platform}.

Lemma create_access_token_login (u : User.t) (env : Env) (s : AsyncSession) :
  create_access_token (mkClaims (Some (User.login u)) None)
    (Some (timedelta_minutes ACCESS_TOKEN_EXPIRE_MINUTES)) env s
  = (Return (login_token u (now env)), s).
Proof.
  unfold create_access_token, login_token. step_handler. cbn [sub].
  destruct (timedelta_truthy (Some (timedelta_minutes ACCESS_TOKEN_EXPIRE_MINUTES)));
    now rewrite timegm_add_minutes.
Qed.

Lemma login_run (user : UserInDB.t) (env : Env) (s : AsyncSession) (u : User.t) :
  lookup_login (store s) (UserInDB.username user) = Some u ->
  pwd_context_verify (UserInDB.hashed_password user) (User.password u)
  = Some true ->
  login_for_access_token user env s
  = (Return (login_response (login_token u (now env))), s).
Proof.
  intros Hu Hv. unfold login_for_access_token, bind.
  rewrite authenticate_user_run, Hu, Hv, create_access_token_login.
  reflexivity.
Qed.

(** What the resolver answers to the token of a login at [t0], for a user
    who is the first of the store with that login. *)
Lemma get_current_user_login_token
    (u : User.t) (t0 : datetime) (env' : Env) (s : AsyncSession) :
  lookup_login (store s) (User.login u) = Some u ->
  get_current_user (Some (login_token u t0)) env' s
  = (if Z.ltb (timegm t0 + 60 * ACCESS_TOKEN_EXPIRE_MINUTES) (timegm (now env'))
     then Raise credentials_exception else Return u, s).
Proof.
  intros Hu. rewrite get_current_user_run.
  unfold login_token, jwt_encode. cbn [jwt_decode existsb exp].
  rewrite orb_false_r, !String.eqb_refl. cbn [negb].
  destruct (Z.ltb (timegm t0 + 60 * ACCESS_TOKEN_EXPIRE_MINUTES) (timegm (now env')));
    [reflexivity|].
  cbn [sub]. now rewrite Hu.
Qed.

(** X1.  A login that returns has found a registered user with the submitted
    username whose stored hash verifies the submitted password; its answer
    carries one token, in the body and in the [httponly] cookie
    [access_token], with the login as subject, and the session is as it
    was. *)
Theorem login_success_sound
    (user : UserInDB.t) (env : Env) (s s' : AsyncSession) (resp : LoginResponse) :
  login_for_access_token user env s = (Return resp, s') ->
  exists u,
    lookup_login (store s) (UserInDB.username user) = Some u
    /\ User.login u = UserInDB.username user
    /\ pwd_context_verify (UserInDB.hashed_password user) (User.password u)
       = Some true
    /\ resp = login_response (login_token u (now env))
    /\ s' = s.
Proof.
  unfold login_for_access_token, bind. rewrite authenticate_user_run.
  destruct (lookup_login (store s) (UserInDB.username user)) as [u|] eqn:Hu;
    [|discriminate].
  destruct (pwd_context_verify (UserInDB.hashed_password user) (User.password u))
    as [[|]|] eqn:Hv; [|discriminate ..].
  rewrite create_access_token_login. intros [= <- <-].
  exists u. repeat split; trivial.
  unfold lookup_login in Hu. apply find_some in Hu. now apply String.eqb_eq.
Qed.

(** X2.  The token a login issued at [env] resolves to the user who logged in
    as long as the clock, in whole seconds, is not past the issue second
    plus the configured minutes, and is refused from the next second on. *)
Theorem login_token_lifetime
    (user : UserInDB.t) (env env' : Env) (d : DB) (u : User.t) :
  lookup_login d (UserInDB.username user) = Some u ->
  pwd_context_verify (UserInDB.hashed_password user) (User.password u)
  = Some true ->
  let token := login_token u (now env) in
  login_for_access_token user env (get_db d)
  = (Return (login_response token), get_db d)
  /\ (timegm (now env') <= timegm (now env) + 60 * ACCESS_TOKEN_EXPIRE_MINUTES ->
      get_current_user (Some token) env' (get_db d) = (Return u, get_db d))
  /\ (timegm (now env) + 60 * ACCESS_TOKEN_EXPIRE_MINUTES < timegm (now env') ->
      get_current_user (Some token) env' (get_db d)
      = (Raise credentials_exception, get_db d)).
Proof.
  intros Hu Hv token.
  assert (Hlogin : User.login u = UserInDB.username user).
  { unfold lookup_login in Hu. apply find_some in Hu. now apply String.eqb_eq. }
  assert (Hself : lookup_login (store (get_db d)) (User.login u) = Some u)
    by now rewrite Hlogin.
  split; [|split].
  - now apply login_run.
  - intros Hin. subst token. rewrite (get_current_user_login_token _ _ _ _ Hself).
    destruct (Z.ltb_spec (timegm (now env) + 60 * ACCESS_TOKEN_EXPIRE_MINUTES)
                (timegm (now env'))); [lia | reflexivity].
  - intros Hpast. subst token. rewrite (get_current_user_login_token _ _ _ _ Hself).
    destruct (Z.ltb_spec (timegm (now env) + 60 * ACCESS_TOKEN_EXPIRE_MINUTES)
                (timegm (now env'))); [reflexivity | lia].
Qed.

(** What a registration that returned has done. *)
Lemma add_user_returned
    (user : UserCreate.t) (env : Env) (d : DB) (resp : Created) (s' : AsyncSession) :
  add_user user env (get_db d) = (Return resp, s') ->
  let row := User.mk (next_pk (users d)) (UserCreate.login user)
               (pwd_context_hash (salt env) (UserCreate.password user)) in
  lookup_login d (UserCreate.login user) = None
  /\ resp = mkCreated 201 row
  /\ s' = get_db (mkDB (users d ++ [row]) (folders d) (themes d) (records d)
                       (knowledge_queues d)).
Proof.
  intros Hrun row.
  assert (Hnew : lookup_login d (UserCreate.login user) = None).
  { unfold add_user, check_unique_login in Hrun. revert Hrun. step_handler.
    unfold lookup_login.
    destruct (find _ (users d)); [step_handler; discriminate | reflexivity]. }
  assert (Hrun' : create_user user env (get_db d) = (Return resp, s')).
  { unfold add_user, check_unique_login in Hrun. revert Hrun. step_handler.
    unfold lookup_login in Hnew. rewrite Hnew. step_handler.
    destruct (create_user user env (get_db d)) as [[a|e] s1]; trivial. }
  assert (Hf : commit_fault env = None /\ refresh_fault env = None).
  { clear Hrun. unfold create_user, get_password_hash in Hrun'. revert Hrun'.
    step_handler.
    destruct (commit_fault env) as [[|]|]; [step_handler; discriminate ..|].
    step_handler. rewrite (find_none_existsb _ _ Hnew). step_handler.
    destruct (refresh_fault env) as [[|]|]; [step_handler; discriminate ..|].
    now split. }
  destruct Hf as [Hc Hr].
  rewrite (create_user_run env d Hc Hr user Hnew) in Hrun'.
  injection Hrun' as <- <-. repeat split. exact Hnew.
Qed.

(** X3.  When the hasher verifies what it hashed, the user a registration
    created logs in with the registered password on the store the
    registration left, whatever rows were there, and the token resolves to
    the created row; a password the hasher does not verify against the
    stored hash is refused. *)
Theorem register_then_login
    (user : UserCreate.t) (env env' : Env) (d : DB)
    (resp : Created) (s' : AsyncSession) :
  add_user user env (get_db d) = (Return resp, s') ->
  pwd_context_verify (UserCreate.password user)
    (pwd_context_hash (salt env) (UserCreate.password user)) = Some true ->
  0 <= ACCESS_TOKEN_EXPIRE_MINUTES ->
  let token := login_token (data resp) (now env') in
  login_for_access_token
    (UserInDB.mk (UserCreate.login user) (UserCreate.password user)) env' s'
  = (Return (login_response token), s')
  /\ get_current_user (Some token) env' s' = (Return (data resp), s')
  /\ (forall other,
        pwd_context_verify other
          (pwd_context_hash (salt env) (UserCreate.password user)) = Some false ->
        login_for_access_token (UserInDB.mk (UserCreate.login user) other) env' s'
        = (Raise invalid_credentials, s')).
Proof.
  intros Hrun Hverify Hminutes token.
  destruct (add_user_returned user env d resp s' Hrun) as (Hnew & -> & ->).
  subst token. cbn [data].
  set (row := User.mk (next_pk (users d)) (UserCreate.login user)
                (pwd_context_hash (salt env) (UserCreate.password user))).
  set (d1 := mkDB (users d ++ [row]) (folders d) (themes d) (records d)
                  (knowledge_queues d)).
  assert (Hfound : lookup_login d1 (UserCreate.login user) = Some row).
  { unfold lookup_login. subst d1. cbn [users]. apply find_after.
    - intros r Hin. unfold lookup_login in Hnew. apply (find_none _ _ Hnew r Hin).
    - subst row. cbn [User.login]. apply String.eqb_refl. }
  split; [|split].
  - apply login_run; trivial.
  - rewrite get_current_user_login_token by exact Hfound.
    destruct (Z.ltb_spec (timegm (now env') + 60 * ACCESS_TOKEN_EXPIRE_MINUTES)
                (timegm (now env'))); [lia | reflexivity].
  - intros other Hother. unfold login_for_access_token, bind.
    rewrite authenticate_user_run. cbn [get_db store UserInDB.username
                                       UserInDB.hashed_password].
    rewrite Hfound. subst row. cbn [User.password]. now rewrite Hother.
Qed.

End LoginToken.

(** ** The logins stay unique *)

Lemma unique_logins_snoc (d : DB) (row : User.t) :
  unique_logins d ->
  existsb (fun v => String.eqb (User.login v) (User.login row)) (users d) = false ->
  NoDup (map User.login (users d ++ [row])).
Proof.
  intros Hd Hfree. rewrite map_app. apply NoDup_app; [exact Hd | |].
  - cbn [map]. constructor; [intros [] | constructor].
  - intros a Ha [<- | []]. apply in_map_iff in Ha as (v & Hv & Hin).
    assert (Htrue : existsb (fun v => String.eqb (User.login v) (User.login row))
                      (users d) = true).
    { apply existsb_exists. exists v. split; [exact Hin|]. now apply String.eqb_eq. }
    congruence.
Qed.

Section Invariants.

Context `{P : Platform}.

(** The store [create_user] leaves: the one it found, or that one with the
    new row at the end of [users], and then the login was free. *)
Lemma create_user_store (user : UserCreate.t) (env : Env) (d : DB) :
  let row := User.mk (next_pk (users d)) (UserCreate.login user)
               (pwd_context_hash (salt env) (UserCreate.password user)) in
  store (snd (create_user user env (get_db d))) = d
  \/ (existsb (fun v => String.eqb (User.login v) (UserCreate.login user)) (users d)
      = false
      /\ store (snd (create_user user env (get_db d)))
         = mkDB (users d ++ [row]) (folders d) (themes d) (records d)
                (knowledge_queues d)).
Proof.
  intros row. subst row. unfold create_user, get_password_hash. step_handler.
  destruct (commit_fault env) as [[|]|]; step_handler; [now left ..|].
  destruct (existsb _ (users d)) eqn:Hfree; step_handler; [now left|].
  right. split; [reflexivity|].
  destruct (refresh_fault env) as [[|]|]; step_handler; [reflexivity ..|].
  match goal with |- context [find ?p ?l] => destruct (find p l) end; reflexivity.
Qed.

Lemma check_unique_login_run (user : UserCreate.t) (env : Env) (s : AsyncSession) :
  check_unique_login user env s
  = (match lookup_login (store s) (UserCreate.login user) with
     | Some _ => Raise (HTTPException HTTP_409_CONFLICT login_taken_detail [])
     | None => Return tt
     end, s).
Proof.
  unfold check_unique_login, lookup_login. step_handler. destruct s as [d pend].
  cbn [users]. destruct (find _ (users d)); reflexivity.
Qed.

(** X4.  Registration keeps the logins of [users] pairwise different, whether it
    goes through the uniqueness check or calls [create_user] at once, and
    whatever the store raises. *)
Theorem registration_keeps_logins_unique
    (user : UserCreate.t) (env : Env) (d : DB) :
  unique_logins d ->
  unique_logins (store (snd (create_user user env (get_db d))))
  /\ unique_logins (store (snd (add_user user env (get_db d)))).
Proof.
  intros Hd.
  assert (Hcreate : unique_logins (store (snd (create_user user env (get_db d))))).
  { destruct (create_user_store user env d) as [-> | [Hfree ->]]; [exact Hd|].
    exact (unique_logins_snoc d
             (User.mk (next_pk (users d)) (UserCreate.login user)
                (pwd_context_hash (salt env) (UserCreate.password user)))
             Hd Hfree). }
  split; [exact Hcreate|].
  unfold add_user, bind. rewrite check_unique_login_run. cbn [get_db store].
  destruct (lookup_login d (UserCreate.login user)); [exact Hd | exact Hcreate].
Qed.

(** X5.  On a store with unique logins, [get_user] finds each registered row
    under its own login. *)
Theorem get_user_finds_each_row (u : User.t) (env : Env) (d : DB) :
  unique_logins d -> In u (users d) ->
  get_user (User.login u) env (get_db d) = (Return (Some u), get_db d).
Proof.
  intros Hd Hin. unfold get_user. step_handler. f_equal. f_equal.
  unfold unique_logins in Hd. induction (users d) as [|v l IH]; [contradiction|].
  cbn [find]. cbn [map] in Hd. apply NoDup_cons_iff in Hd as [Hv Hl].
  destruct Hin as [-> | Hin].
  - now rewrite String.eqb_refl.
  - destruct (String.eqb_spec (User.login v) (User.login u)) as [Heq|Hne].
    + exfalso. apply Hv. rewrite Heq. now apply in_map.
    + now apply IH.
Qed.

End Invariants.

(** ** What a creation changes *)

(** X6.  A creation of a folder, a theme, a record or a knowledge queue entry
    leaves the four other tables as they were and adds at most one row, at
    the end of its own table, whatever the store raises. *)
Theorem creation_touches_its_table_only
    (env : Env) (d : DB) (parent : Z)
    (folder_data : FolderBase.t) (theme_data : ThemeCreate.t)
    (record_data : RecordCreate.t) (queue_data : KnowledgeQueueCreate.t) :
  let d1 := store (snd (add_folder folder_data parent env (get_db d))) in
  let d2 := store (snd (add_theme theme_data parent env (get_db d))) in
  let d3 := store (snd (add_record record_data parent env (get_db d))) in
  let d4 := store (snd (add_knowledge_queue queue_data parent env (get_db d))) in
  (users d1 = users d /\ themes d1 = themes d /\ records d1 = records d
   /\ knowledge_queues d1 = knowledge_queues d
   /\ (folders d1 = folders d \/ exists f, folders d1 = folders d ++ [f]))
  /\ (users d2 = users d /\ folders d2 = folders d /\ records d2 = records d
      /\ knowledge_queues d2 = knowledge_queues d
      /\ (themes d2 = themes d \/ exists t, themes d2 = themes d ++ [t]))
  /\ (users d3 = users d /\ folders d3 = folders d /\ themes d3 = themes d
      /\ knowledge_queues d3 = knowledge_queues d
      /\ (records d3 = records d \/ exists r, records d3 = records d ++ [r]))
  /\ (users d4 = users d /\ folders d4 = folders d /\ themes d4 = themes d
      /\ records d4 = records d
      /\ (knowledge_queues d4 = knowledge_queues d
          \/ exists q, knowledge_queues d4 = knowledge_queues d ++ [q])).
Proof.
  intros d1 d2 d3 d4. subst d1 d2 d3 d4.
  split; [|split; [|split]].
  - unfold add_folder. store_answers env;
      (repeat split; try reflexivity; first [now left | right; eexists; reflexivity]).
  - unfold add_theme. store_answers env;
      (repeat split; try reflexivity; first [now left | right; eexists; reflexivity]).
  - unfold add_record. store_answers env;
      (repeat split; try reflexivity; first [now left | right; eexists; reflexivity]).
  - unfold add_knowledge_queue. store_answers env;
      (repeat split; try reflexivity; first [now left | right; eexists; reflexivity]).
Qed.

(** A listing of the rows of a parent, before and after a row is appended
    under the parent [p]. *)
Lemma filter_snoc_same {A} (key : A -> Z) (p : Z) (rows : list A) (row : A) :
  key row = p ->
  filter (fun r => Z.eqb (key r) p) (rows ++ [row])
  = filter (fun r => Z.eqb (key r) p) rows ++ [row].
Proof.
  intros Hk. rewrite filter_app. cbn [filter]. now rewrite Hk, Z.eqb_refl.
Qed.

Lemma filter_snoc_other {A} (key : A -> Z) (p q : Z) (rows : list A) (row : A) :
  key row = p -> q <> p ->
  filter (fun r => Z.eqb (key r) q) (rows ++ [row])
  = filter (fun r => Z.eqb (key r) q) rows.
Proof.
  intros Hk Hne. rewrite filter_app. cbn [filter].
  rewrite Hk. destruct (Z.eqb_spec p q); [congruence|]. apply app_nil_r.
Qed.

(** X7.  After a folder is created for [U], the listing of [U]
    holds the rows it held before and the new one, each as often as before
    and the new one once more, and the listing of every other user holds
    the rows it held before; nothing is said of the order. *)
Theorem add_folder_extends_listing
    (data : FolderBase.t) (U : Z) (env env1 : Env) (d : DB)
    (folder : Folder.t) (s' : AsyncSession) :
  add_folder data U env (get_db d) = (Return folder, s') ->
  (exists before after,
      fst (get_user_folders U env1 (get_db d)) = Return before
      /\ fst (get_user_folders U env1 (get_db (store s'))) = Return after
      /\ Permutation after (folder :: before))
  /\ (forall other, other <> U ->
      exists before after,
        fst (get_user_folders other env1 (get_db d)) = Return before
        /\ fst (get_user_folders other env1 (get_db (store s'))) = Return after
        /\ Permutation after before).
Proof.
  intros Hrun.
  assert (Hf : commit_fault env = None /\ refresh_fault env = None).
  { returned_without_fault Hrun add_folder env. }
  destruct Hf as [Hc Hr].
  rewrite (add_folder_run env d Hc Hr) in Hrun. injection Hrun as <- <-.
  unfold get_user_folders. step_handler. split.
  - eexists. eexists. split; [reflexivity|]. split; [reflexivity|].
    rewrite (filter_snoc_same Folder.user_id) by reflexivity.
    apply Permutation_sym, Permutation_cons_append.
  - intros other Hne. eexists. eexists. split; [reflexivity|].
    split; [reflexivity|].
    now rewrite (filter_snoc_other Folder.user_id U).
Qed.

(** X8.  After a theme is created under the folder [F], the listing of [F]
    holds the rows it held before and the new one, each as often as before
    and the new one once more, and the listing of every other folder holds
    the rows it held before; nothing is said of the order. *)
Theorem add_theme_extends_listing
    (data : ThemeCreate.t) (F : Z) (env env1 : Env) (d : DB)
    (theme : Theme.t) (s' : AsyncSession) :
  add_theme data F env (get_db d) = (Return theme, s') ->
  (exists before after,
      fst (get_themes_by_folder F env1 (get_db d)) = Return before
      /\ fst (get_themes_by_folder F env1 (get_db (store s'))) = Return after
      /\ Permutation after (theme :: before))
  /\ (forall other, other <> F ->
      exists before after,
        fst (get_themes_by_folder other env1 (get_db d)) = Return before
        /\ fst (get_themes_by_folder other env1 (get_db (store s'))) = Return after
        /\ Permutation after before).
Proof.
  intros Hrun.
  assert (Hf : commit_fault env = None /\ refresh_fault env = None).
  { returned_without_fault Hrun add_theme env. }
  destruct Hf as [Hc Hr].
  rewrite (add_theme_run env d Hc Hr) in Hrun. injection Hrun as <- <-.
  unfold get_themes_by_folder. step_handler. split.
  - eexists. eexists. split; [reflexivity|]. split; [reflexivity|].
    rewrite (filter_snoc_same Theme.folder_id) by reflexivity.
    apply Permutation_sym, Permutation_cons_append.
  - intros other Hne. eexists. eexists. split; [reflexivity|].
    split; [reflexivity|].
    now rewrite (filter_snoc_other Theme.folder_id F).
Qed.

(** X9.  After a record is created under the theme [T], the listing of [T]
    holds the rows it held before and the new one, each as often as before
    and the new one once more, and the listing of every other theme holds
    the rows it held before; nothing is said of the order. *)
Theorem add_record_extends_listing
    (data : RecordCreate.t) (T : Z) (env env1 : Env) (d : DB)
    (record : Record_.t) (s' : AsyncSession) :
  add_record data T env (get_db d) = (Return record, s') ->
  (exists before after,
      fst (get_records_by_theme T env1 (get_db d)) = Return before
      /\ fst (get_records_by_theme T env1 (get_db (store s'))) = Return after
      /\ Permutation after (record :: before))
  /\ (forall other, other <> T ->
      exists before after,
        fst (get_records_by_theme other env1 (get_db d)) = Return before
        /\ fst (get_records_by_theme other env1 (get_db (store s'))) = Return after
        /\ Permutation after before).
Proof.
  intros Hrun.
  assert (Hf : commit_fault env = None /\ refresh_fault env = None).
  { returned_without_fault Hrun add_record env. }
  destruct Hf as [Hc Hr].
  rewrite (add_record_run env d Hc Hr) in Hrun. injection Hrun as <- <-.
  unfold get_records_by_theme. step_handler. split.
  - eexists. eexists. split; [reflexivity|]. split; [reflexivity|].
    rewrite (filter_snoc_same Record_.theme_id) by reflexivity.
    apply Permutation_sym, Permutation_cons_append.
  - intros other Hne. eexists. eexists. split; [reflexivity|].
    split; [reflexivity|].
    now rewrite (filter_snoc_other Record_.theme_id T).
Qed.

(** X10.  After a knowledge queue entry is created for [U], the listing of [U]
    holds the rows it held before and the new one, each as often as before
    and the new one once more, and the listing of every other user holds
    the rows it held before; nothing is said of the order. *)
Theorem add_knowledge_queue_extends_listing
    (data : KnowledgeQueueCreate.t) (U : Z) (env env1 : Env) (d : DB)
    (entry : KnowledgeQueue.t) (s' : AsyncSession) :
  add_knowledge_queue data U env (get_db d) = (Return entry, s') ->
  (exists before after,
      fst (get_knowledge_queues_by_user U env1 (get_db d)) = Return before
      /\ fst (get_knowledge_queues_by_user U env1 (get_db (store s'))) = Return after
      /\ Permutation after (entry :: before))
  /\ (forall other, other <> U ->
      exists before after,
        fst (get_knowledge_queues_by_user other env1 (get_db d)) = Return before
        /\ fst (get_knowledge_queues_by_user other env1 (get_db (store s'))) = Return after
        /\ Permutation after before).
Proof.
  intros Hrun.
  assert (Hf : commit_fault env = None /\ refresh_fault env = None).
  { returned_without_fault Hrun add_knowledge_queue env. }
  destruct Hf as [Hc Hr].
  rewrite (add_knowledge_queue_run env d Hc Hr) in Hrun. injection Hrun as <- <-.
  unfold get_knowledge_queues_by_user. step_handler. split.
  - eexists. eexists. split; [reflexivity|]. split; [reflexivity|].
    rewrite (filter_snoc_same KnowledgeQueue.user_id) by reflexivity.
    apply Permutation_sym, Permutation_cons_append.
  - intros other Hne. eexists. eexists. split; [reflexivity|].
    split; [reflexivity|].
    now rewrite (filter_snoc_other KnowledgeQueue.user_id U).
Qed.

(** X11.  The folder, theme or record a creation returns keeps the text and the
    counter of the body and carries the clock reading of the service as its
    last opened time, whatever time the body carried. *)
Theorem last_opened_is_server_time
    (env : Env) (d : DB) (parent : Z)
    (folder_data : FolderBase.t) (theme_data : ThemeCreate.t)
    (record_data : RecordCreate.t) :
  (forall folder s',
      add_folder folder_data parent env (get_db d) = (Return folder, s') ->
      Folder.last_open_date_time folder = Some (now env)
      /\ Folder.text_folder folder = FolderBase.text_folder folder_data
      /\ Folder.number_of_topics folder = FolderBase.number_of_topics folder_data)
  /\ (forall theme s',
      add_theme theme_data parent env (get_db d) = (Return theme, s') ->
      Theme.last_open_date_time theme = Some (now env)
      /\ Theme.name_theme theme = ThemeCreate.name_theme theme_data
      /\ Theme.number_of_records theme = ThemeCreate.number_of_records theme_data)
  /\ (forall record s',
      add_record record_data parent env (get_db d) = (Return record, s') ->
      Record_.last_open_date_time record = Some (now env)
      /\ Record_.name_record record = RecordCreate.name_record record_data
      /\ Record_.text_records record = RecordCreate.text_records record_data
      /\ Record_.count_text record = RecordCreate.count_text record_data).
Proof.
  split; [|split].
  - intros folder s' Hrun.
    assert (Hf : commit_fault env = None /\ refresh_fault env = None).
    { returned_without_fault Hrun add_folder env. }
    destruct Hf as [Hc Hr].
    rewrite (add_folder_run env d Hc Hr) in Hrun. injection Hrun as <- <-.
    repeat split.
  - intros theme s' Hrun.
    assert (Hf : commit_fault env = None /\ refresh_fault env = None).
    { returned_without_fault Hrun add_theme env. }
    destruct Hf as [Hc Hr].
    rewrite (add_theme_run env d Hc Hr) in Hrun. injection Hrun as <- <-.
    repeat split.
  - intros record s' Hrun.
    assert (Hf : commit_fault env = None /\ refresh_fault env = None).
    { returned_without_fault Hrun add_record env. }
    destruct Hf as [Hc Hr].
    rewrite (add_record_run env d Hc Hr) in Hrun. injection Hrun as <- <-.
    repeat split.
Qed.

(** ** The endpoints and the caller *)

Section Callers.

Context `{P : Platform}.

Lemma get_current_user_returned (req : Request) (env : Env) (s : AsyncSession) (u : User.t) :
  fst (get_current_user (access_token req) env s) = Return u ->
  get_current_user (access_token req) env s = (Return u, s).
Proof.
  rewrite get_current_user_run. cbn [fst]. now intros ->.
Qed.

Lemma get_current_user_raised (req : Request) (env : Env) (s : AsyncSession) (e : Exn) :
  fst (get_current_user (access_token req) env s) = Raise e ->
  get_current_user (access_token req) env s = (Raise credentials_exception, s).
Proof.
  rewrite get_current_user_run. cbn [fst].
  destruct (access_token req) as [token|]; [|reflexivity].
  destruct (jwt_decode token SECRET_KEY [ALGORITHM] (now env)) as [k|c];
    [reflexivity|].
  destruct (sub c) as [username|]; [|reflexivity].
  destruct (lookup_login (store s) username); [discriminate | reflexivity].
Qed.

(** X12.  The folders and knowledge queue entries created through the endpoints
    belong to the user the cookie resolves to, whatever the body says, and
    the two listings return the rows of that user and no other row. *)
Theorem user_scoped_endpoints_use_the_caller
    (req : Request) (env : Env) (d : DB) (u : User.t)
    (folder_data : FolderBase.t) (queue_data : KnowledgeQueueCreate.t) :
  fst (get_current_user (access_token req) env (get_db d)) = Return u ->
  (forall folder s',
      add_one_folder req folder_data env (get_db d) = (Return folder, s') ->
      Folder.user_id folder = User.id u)
  /\ (forall entry s',
      create_knowledge_queue req queue_data env (get_db d) = (Return entry, s') ->
      KnowledgeQueue.user_id entry = User.id u)
  /\ (exists listing,
      read_user_folders req env (get_db d) = (Return listing, get_db d)
      /\ forall f, In f listing <-> In f (folders d) /\ Folder.user_id f = User.id u)
  /\ (exists listing,
      read_knowledge_queue req env (get_db d) = (Return listing, get_db d)
      /\ forall q, In q listing
                   <-> In q (knowledge_queues d) /\ KnowledgeQueue.user_id q = User.id u).
Proof.
  intros Hauth. apply get_current_user_returned in Hauth.
  split; [|split; [|split]].
  - intros folder s'. unfold add_one_folder, bind. rewrite Hauth. intros Hrun.
    assert (Hf : commit_fault env = None /\ refresh_fault env = None).
    { returned_without_fault Hrun add_folder env. }
    destruct Hf as [Hc Hr].
    rewrite (add_folder_run env d Hc Hr) in Hrun. now injection Hrun as <- <-.
  - intros entry s'. unfold create_knowledge_queue, bind. rewrite Hauth. intros Hrun.
    assert (Hf : commit_fault env = None /\ refresh_fault env = None).
    { returned_without_fault Hrun add_knowledge_queue env. }
    destruct Hf as [Hc Hr].
    rewrite (add_knowledge_queue_run env d Hc Hr) in Hrun.
    now injection Hrun as <- <-.
  - eexists. split.
    + unfold read_user_folders, bind. rewrite Hauth. reflexivity.
    + intros f. rewrite filter_In, Z.eqb_eq. reflexivity.
  - eexists. split.
    + unfold read_knowledge_queue, bind. rewrite Hauth. reflexivity.
    + intros q. rewrite filter_In, Z.eqb_eq. reflexivity.
Qed.

(** X13.  A request whose cookie the resolver refuses gets the credentials
    exception from each of the six endpoints that depend on the resolver,
    and the session, its store and its pending objects, is as it was:
    nothing is created. *)
Theorem refused_cookie_creates_nothing
    (req : Request) (env : Env) (s : AsyncSession) (e : Exn)
    (parent : Z) (folder_data : FolderBase.t) (theme_data : ThemeCreate.t)
    (record_data : RecordCreate.t) (queue_data : KnowledgeQueueCreate.t) :
  fst (get_current_user (access_token req) env s) = Raise e ->
  add_one_folder req folder_data env s = (Raise credentials_exception, s)
  /\ read_user_folders req env s = (Raise credentials_exception, s)
  /\ create_theme req parent theme_data env s = (Raise credentials_exception, s)
  /\ create_record req parent record_data env s = (Raise credentials_exception, s)
  /\ create_knowledge_queue req queue_data env s = (Raise credentials_exception, s)
  /\ read_knowledge_queue req env s = (Raise credentials_exception, s).
Proof.
  intros Hauth. apply get_current_user_raised in Hauth.
  unfold add_one_folder, read_user_folders, create_theme, create_record,
    create_knowledge_queue, read_knowledge_queue, bind.
  rewrite Hauth. repeat split.
Qed.

(** X14.  The login and the four listing endpoints leave the session as it was,
    store and pending objects, whatever they answer. *)
Theorem login_and_listings_write_nothing
    (req : Request) (user : UserInDB.t) (parent : Z) (env : Env) (s : AsyncSession) :
  snd (login_for_access_token user env s) = s
  /\ snd (read_user_folders req env s) = s
  /\ snd (read_themes req parent env s) = s
  /\ snd (read_records req parent env s) = s
  /\ snd (read_knowledge_queue req env s) = s.
Proof.
  split; [|split; [|split; [|split]]].
  - unfold login_for_access_token, bind. rewrite authenticate_user_run.
    destruct (lookup_login (store s) (UserInDB.username user)) as [u|];
      [|reflexivity].
    destruct (pwd_context_verify (UserInDB.hashed_password user) (User.password u))
      as [[|]|]; [|reflexivity ..].
    now rewrite create_access_token_login.
  - unfold read_user_folders, bind. rewrite get_current_user_run.
    destruct (access_token req) as [token|]; [|reflexivity].
    destruct (jwt_decode token SECRET_KEY [ALGORITHM] (now env)) as [k|c];
      [reflexivity|].
    destruct (sub c) as [username|]; [|reflexivity].
    destruct (lookup_login (store s) username); reflexivity.
  - reflexivity.
  - reflexivity.
  - unfold read_knowledge_queue, bind. rewrite get_current_user_run.
    destruct (access_token req) as [token|]; [|reflexivity].
    destruct (jwt_decode token SECRET_KEY [ALGORITHM] (now env)) as [k|c];
      [reflexivity|].
    destruct (sub c) as [username|]; [|reflexivity].
    destruct (lookup_login (store s) username); reflexivity.
Qed.

(** X15.  For a request whose cookie resolves to a user, each of the four
    creation endpoints returns or raises its own 400: whatever the store
    raises at the commit or at the refresh, that exception does not reach
    the caller. *)
Theorem creation_endpoints_raise_http_only
    (req : Request) (env : Env) (d : DB) (u : User.t) (e : Exn) (parent : Z)
    (folder_data : FolderBase.t) (theme_data : ThemeCreate.t)
    (record_data : RecordCreate.t) (queue_data : KnowledgeQueueCreate.t) :
  fst (get_current_user (access_token req) env (get_db d)) = Return u ->
  (fst (add_one_folder req folder_data env (get_db d)) = Raise e ->
     e = bad_request "Failed to add folder.")
  /\ (fst (create_theme req parent theme_data env (get_db d)) = Raise e ->
     e = bad_request "Failed to add theme.")
  /\ (fst (create_record req parent record_data env (get_db d)) = Raise e ->
     e = bad_request "Failed to add record.")
  /\ (fst (create_knowledge_queue req queue_data env (get_db d)) = Raise e ->
     e = bad_request "Failed to add knowledge queue.").
Proof.
  intros Hauth. apply get_current_user_returned in Hauth.
  unfold add_one_folder, create_theme, create_record, create_knowledge_queue, bind.
  rewrite Hauth.
  split; [|split; [|split]].
  - unfold add_folder. store_answers env; now intros [= <-].
  - unfold add_theme. store_answers env; now intros [= <-].
  - unfold add_record. store_answers env; now intros [= <-].
  - unfold add_knowledge_queue. store_answers env; now intros [= <-].
Qed.

End Callers.

(** ** The earlier registration *)

(** X17.  The two refusals of the earlier [create_user], by its own check and by
    the handler of the integrity violation, are one and the same 400, and
    both leave the store as it was. *)
Theorem legacy_refusals_agree (user : UserCreate.t) (env : Env) (d : DB) :
  (lookup_login d (UserCreate.login user) <> None
   \/ commit_fault env = Some IntegrityError) ->
  Legacy.add_user user env (get_db d)
  = (Raise (HTTPException HTTP_400_BAD_REQUEST Legacy.login_exists_detail []),
     get_db d).
Proof.
  intros Hcase. unfold Legacy.add_user, Legacy.create_user. step_handler.
  unfold lookup_login in Hcase.
  destruct (find _ (users d)) as [v|]; step_handler; [reflexivity|].
  destruct Hcase as [Hc | Hc]; [congruence|]. now rewrite Hc.
Qed.

(** X18.  The earlier registration stores the password as it was submitted: the
    row it returns is the one it appended to [users], and its password
    column holds the password of the request. *)
Theorem legacy_stores_submitted_password
    (user : UserCreate.t) (env : Env) (d : DB) (row : User.t) (s' : AsyncSession) :
  Legacy.add_user user env (get_db d) = (Return row, s') ->
  User.password row = UserCreate.password user
  /\ User.login row = UserCreate.login user
  /\ users (store s') = users d ++ [row].
Proof.
  unfold Legacy.add_user, Legacy.create_user. step_handler.
  destruct (find _ (users d)) as [v|] eqn:Hnew; step_handler; [discriminate|].
  destruct (commit_fault env) as [[|]|]; step_handler; [discriminate ..|].
  rewrite (find_none_existsb _ _ Hnew). step_handler.
  destruct (refresh_fault env) as [[|]|]; step_handler; [discriminate ..|].
  read_back (find_fresh_row (H := User_Model) (users d)
               (User.mk (next_pk (users d)) (UserCreate.login user)
                  (UserCreate.password user))
               eq_refl) User_Model.
  intros [= <- <-]. repeat split.
Qed.

(** ** Runs of the further properties on the sample data *)

(** Alice logs in on [db1] at [env0]. *)
Lemma login_success_sound_witness :
  login_for_access_token (P := reference_platform)
    (UserInDB.mk "alice" "pw1") env0 (get_db db1)
  = (Return (login_response alice_token), get_db db1)
  /\ exists u,
      lookup_login db1 "alice" = Some u
      /\ User.login u = "alice"
      /\ pwd_context_verify (Platform := reference_platform) "pw1" (User.password u)
         = Some true.
Proof.
  split; [reflexivity|].
  destruct (login_success_sound (P := reference_platform)
              (UserInDB.mk "alice" "pw1") env0 (get_db db1) (get_db db1)
              (login_response alice_token) eq_refl)
    as (u & Hu & Hlogin & Hv & _).
  exists u. split; [exact Hu | split; [exact Hlogin | exact Hv]].
Defined.

(** Her token resolves in the last microsecond of its 1800 seconds and is
    refused in the next. *)
Lemma login_token_lifetime_witness :
  get_current_user (P := reference_platform) (Some alice_token) env_last (get_db db1)
  = (Return alice_row, get_db db1)
  /\ get_current_user (P := reference_platform) (Some alice_token) env_late (get_db db1)
     = (Raise credentials_exception, get_db db1).
Proof.
  split.
  - apply (proj1 (proj2 (login_token_lifetime (P := reference_platform)
                           (UserInDB.mk "alice" "pw1") env0 env_last db1 alice_row
                           eq_refl eq_refl))).
    vm_compute. discriminate.
  - apply (proj2 (proj2 (login_token_lifetime (P := reference_platform)
                           (UserInDB.mk "alice" "pw1") env0 env_late db1 alice_row
                           eq_refl eq_refl))).
    reflexivity.
Defined.

(** Alice registers on the empty store and logs in; "pw2" is refused. *)
Lemma register_then_login_witness :
  add_user (P := reference_platform) alice env0 (get_db empty_db)
  = (Return (mkCreated 201 alice_row), get_db (mkDB [alice_row] [] [] [] []))
  /\ login_for_access_token (P := reference_platform)
       (UserInDB.mk "alice" "pw1") env0 (get_db (mkDB [alice_row] [] [] [] []))
     = (Return (login_response alice_token), get_db (mkDB [alice_row] [] [] [] []))
  /\ login_for_access_token (P := reference_platform)
       (UserInDB.mk "alice" "pw2") env0 (get_db (mkDB [alice_row] [] [] [] []))
     = (Raise invalid_credentials, get_db (mkDB [alice_row] [] [] [] [])).
Proof.
  split; [reflexivity|].
  assert (Hminutes : 0 <= ACCESS_TOKEN_EXPIRE_MINUTES (Platform := reference_platform))
    by discriminate.
  pose proof (register_then_login (P := reference_platform) alice env0 env0 empty_db
                (mkCreated 201 alice_row) (get_db (mkDB [alice_row] [] [] [] []))
                eq_refl eq_refl Hminutes) as (Hlogin & _ & Hother).
  split; [exact Hlogin | exact (Hother "pw2" eq_refl)].
Defined.

Lemma db1_unique_logins : unique_logins db1.
Proof.
  unfold unique_logins. cbn [map users db1 User.login alice_row bob_row].
  constructor; [intros [H | []]; discriminate H|].
  constructor; [intros [] | constructor].
Defined.

(** Carol registers on [db1], and Alice tries again without the check. *)
Lemma registration_keeps_logins_unique_witness :
  unique_logins db1
  /\ unique_logins
       (store (snd (add_user (P := reference_platform)
                      (UserCreate.mk "carol" "pw3") env0 (get_db db1))))
  /\ unique_logins
       (store (snd (create_user (P := reference_platform) alice env0 (get_db db1)))).
Proof.
  split; [exact db1_unique_logins|].
  split.
  - exact (proj2 (registration_keeps_logins_unique (P := reference_platform)
                    (UserCreate.mk "carol" "pw3") env0 db1 db1_unique_logins)).
  - exact (proj1 (registration_keeps_logins_unique (P := reference_platform)
                    alice env0 db1 db1_unique_logins)).
Defined.

Lemma get_user_finds_each_row_witness :
  get_user "bob" env0 (get_db db1) = (Return (Some bob_row), get_db db1).
Proof.
  apply (get_user_finds_each_row bob_row env0 db1 db1_unique_logins).
  right. left. reflexivity.
Defined.

(** Bob's folder joins his listing and leaves Alice's as it was. *)
Lemma add_folder_extends_listing_witness :
  let after_it := db2 in
  add_folder french 2 env0 (get_db db1) = (Return bob_folder, get_db after_it)
  /\ (exists before after,
        fst (get_user_folders 2 env0 (get_db db1)) = Return before
        /\ fst (get_user_folders 2 env0 (get_db after_it)) = Return after
        /\ Permutation after (bob_folder :: before))
  /\ (exists before after,
        fst (get_user_folders 1 env0 (get_db db1)) = Return before
        /\ fst (get_user_folders 1 env0 (get_db after_it)) = Return after
        /\ Permutation after before).
Proof.
  intros after_it. split; [reflexivity|].
  destruct (add_folder_extends_listing french 2 env0 env0 db1 bob_folder (get_db after_it) eq_refl)
    as (Hsame & Hother).
  split; [exact Hsame | apply Hother; discriminate].
Defined.

(** Bob's theme joins the listing of folder 1 and leaves that of folder 2. *)
Lemma add_theme_extends_listing_witness :
  let after_it := mkDB (users db1) (folders db1) [alice_theme; bob_theme]
                       (records db1) (knowledge_queues db1) in
  add_theme nouns 1 env0 (get_db db1) = (Return bob_theme, get_db after_it)
  /\ (exists before after,
        fst (get_themes_by_folder 1 env0 (get_db db1)) = Return before
        /\ fst (get_themes_by_folder 1 env0 (get_db after_it)) = Return after
        /\ Permutation after (bob_theme :: before))
  /\ (exists before after,
        fst (get_themes_by_folder 2 env0 (get_db db1)) = Return before
        /\ fst (get_themes_by_folder 2 env0 (get_db after_it)) = Return after
        /\ Permutation after before).
Proof.
  intros after_it. split; [reflexivity|].
  destruct (add_theme_extends_listing nouns 1 env0 env0 db1 bob_theme (get_db after_it) eq_refl)
    as (Hsame & Hother).
  split; [exact Hsame | apply Hother; discriminate].
Defined.

(** Bob's record joins the listing of theme 1 and leaves that of theme 2. *)
Lemma add_record_extends_listing_witness :
  let after_it := mkDB (users db1) (folders db1) (themes db1)
                       [alice_record; bob_record] (knowledge_queues db1) in
  add_record estar 1 env0 (get_db db1) = (Return bob_record, get_db after_it)
  /\ (exists before after,
        fst (get_records_by_theme 1 env0 (get_db db1)) = Return before
        /\ fst (get_records_by_theme 1 env0 (get_db after_it)) = Return after
        /\ Permutation after (bob_record :: before))
  /\ (exists before after,
        fst (get_records_by_theme 2 env0 (get_db db1)) = Return before
        /\ fst (get_records_by_theme 2 env0 (get_db after_it)) = Return after
        /\ Permutation after before).
Proof.
  intros after_it. split; [reflexivity|].
  destruct (add_record_extends_listing estar 1 env0 env0 db1 bob_record (get_db after_it) eq_refl)
    as (Hsame & Hother).
  split; [exact Hsame | apply Hother; discriminate].
Defined.

(** The entry joins Alice's listing and leaves Bob's. *)
Lemma add_knowledge_queue_extends_listing_witness :
  let after_it := db3 in
  add_knowledge_queue review_verbs 1 env0 (get_db db1) = (Return review_verbs_entry, get_db after_it)
  /\ (exists before after,
        fst (get_knowledge_queues_by_user 1 env0 (get_db db1)) = Return before
        /\ fst (get_knowledge_queues_by_user 1 env0 (get_db after_it)) = Return after
        /\ Permutation after (review_verbs_entry :: before))
  /\ (exists before after,
        fst (get_knowledge_queues_by_user 2 env0 (get_db db1)) = Return before
        /\ fst (get_knowledge_queues_by_user 2 env0 (get_db after_it)) = Return after
        /\ Permutation after before).
Proof.
  intros after_it. split; [reflexivity|].
  destruct (add_knowledge_queue_extends_listing review_verbs 1 env0 env0 db1 review_verbs_entry (get_db after_it) eq_refl)
    as (Hsame & Hother).
  split; [exact Hsame | apply Hother; discriminate].
Defined.

(** The body of Bob's folder carries no time, the one of his theme neither:
    both rows carry the clock of [env0]. *)
Lemma last_opened_is_server_time_witness :
  Folder.last_open_date_time bob_folder = Some (now env0)
  /\ Theme.last_open_date_time bob_theme = Some (now env0)
  /\ Record_.last_open_date_time bob_record = Some (now env0).
Proof.
  pose proof (last_opened_is_server_time env0 db1 2 french nouns estar)
    as (Hfolder & _ & _).
  pose proof (last_opened_is_server_time env0 db1 1 french nouns estar)
    as (_ & Htheme & Hrecord).
  split; [|split].
  - exact (proj1 (Hfolder bob_folder (get_db db2) eq_refl)).
  - exact (proj1 (Htheme bob_theme
                    (get_db (mkDB (users db1) (folders db1) [alice_theme; bob_theme]
                                  (records db1) (knowledge_queues db1)))
                    eq_refl)).
  - exact (proj1 (Hrecord bob_record
                    (get_db (mkDB (users db1) (folders db1) (themes db1)
                                  [alice_record; bob_record] (knowledge_queues db1)))
                    eq_refl)).
Defined.

(** With Bob's cookie the folder is Bob's, and his listing on [db2] is his
    one folder. *)
Lemma user_scoped_endpoints_use_the_caller_witness :
  add_one_folder (P := reference_platform) (mkRequest (Some bob_token)) french env0
    (get_db db1)
  = (Return bob_folder, get_db db2)
  /\ Folder.user_id bob_folder = User.id bob_row
  /\ exists listing,
      read_user_folders (P := reference_platform) (mkRequest (Some bob_token)) env0
        (get_db db2)
      = (Return listing, get_db db2)
      /\ (In alice_folder listing -> False).
Proof.
  split; [reflexivity|].
  split.
  - exact (proj1 (user_scoped_endpoints_use_the_caller (P := reference_platform)
                    (mkRequest (Some bob_token)) env0 db1 bob_row french review_verbs
                    eq_refl)
                 bob_folder (get_db db2) eq_refl).
  - destruct (proj1 (proj2 (proj2
                (user_scoped_endpoints_use_the_caller (P := reference_platform)
                   (mkRequest (Some bob_token)) env0 db2 bob_row french review_verbs
                   eq_refl))))
      as (listing & Hrun & Hin).
    exists listing. split; [exact Hrun|].
    intros Ha. apply Hin in Ha. destruct Ha as [_ Ha]. discriminate Ha.
Defined.

(** The tampered token creates no folder on [db1]. *)
Lemma refused_cookie_creates_nothing_witness :
  add_one_folder (P := reference_platform) (mkRequest (Some tampered_token)) french
    env0 (get_db db1)
  = (Raise credentials_exception, get_db db1).
Proof.
  exact (proj1 (refused_cookie_creates_nothing (P := reference_platform)
                  (mkRequest (Some tampered_token)) env0 (get_db db1)
                  credentials_exception 1 french nouns estar review_verbs eq_refl)).
Defined.

(** With Bob's cookie and a lost connection, the folder endpoint answers
    with its 400. *)
Lemma creation_endpoints_raise_http_only_witness :
  fst (get_current_user (P := reference_platform) (Some bob_token) env_down
         (get_db db1))
  = Return bob_row
  /\ fst (add_one_folder (P := reference_platform) (mkRequest (Some bob_token)) french
            env_down (get_db db1))
     = Raise (bad_request "Failed to add folder.").
Proof.
  split; [reflexivity|].
  destruct (fst (add_one_folder (P := reference_platform)
                   (mkRequest (Some bob_token)) french env_down (get_db db1)))
    as [folder|e] eqn:Hrun; [discriminate Hrun|].
  f_equal.
  exact (proj1 (creation_endpoints_raise_http_only (P := reference_platform)
                  (mkRequest (Some bob_token)) env_down db1 bob_row e 1
                  french nouns estar review_verbs eq_refl)
               Hrun).
Defined.

(** Alice is refused by the check of the earlier registration on [db1],
    and by its integrity handler on the empty store. *)
Lemma legacy_refusals_agree_witness :
  Legacy.add_user alice env0 (get_db db1)
  = (Raise (HTTPException 400 Legacy.login_exists_detail []), get_db db1)
  /\ Legacy.add_user alice env_raced (get_db empty_db)
     = (Raise (HTTPException 400 Legacy.login_exists_detail []), get_db empty_db).
Proof.
  split.
  - apply (legacy_refusals_agree alice env0 db1). left. discriminate.
  - apply (legacy_refusals_agree alice env_raced empty_db). right. reflexivity.
Defined.

(** The earlier registration stores "pw1" for Alice. *)
Lemma legacy_stores_submitted_password_witness :
  Legacy.add_user alice env0 (get_db empty_db)
  = (Return (User.mk 1 "alice" "pw1"),
     get_db (mkDB [User.mk 1 "alice" "pw1"] [] [] [] []))
  /\ User.password (User.mk 1 "alice" "pw1") = UserCreate.password alice.
Proof.
  split; [reflexivity|].
  exact (proj1 (legacy_stores_submitted_password alice env0 empty_db
                  (User.mk 1 "alice" "pw1")
                  (get_db (mkDB [User.mk 1 "alice" "pw1"] [] [] [] [])) eq_refl)).
Defined.
